(** * Epub.Editor: a shallow embedding of the editing core

    The development follows the layout of [epsilon_editor/core]:

    - [Py]            the Python built-ins the core relies on (indexing,
                      slicing, [str.endswith], [str.strip], insertion-ordered
                      dictionaries);
    - [PathLib]       [urllib.parse.unquote] and [pathlib] joins;
    - [Zip]           archives as ordered member lists ([zipfile]);
    - [Soup], [Re]    the interfaces of the markup and pattern libraries, with
                      one executable reference instance each;
    - [Model]         [epub_model.py] and [search_models.py];
    - [ContentManager], [SearchEngine], [ReplaceEngine], [EpubSaver],
      [EpubLoader]    one module per source file.

    Python [str] and [bytes] are both modelled by [string], a sequence of
    8-bit characters; a Python [int] that a caller supplies (an index, an
    offset) by [Z], a count the code builds up from zero by [nat]. *)

From Stdlib Require Import ZArith Lia Bool Ascii String List.
From stdpp Require Import base option list strings gmap.

Import ListNotations.
Set Warnings "-register-all".
Local Open Scope string_scope.
Local Open Scope list_scope.

(* ================================================================== *)
(** ** Python built-ins *)
(* ================================================================== *)

Module Py.

Definition chars (s : string) : list ascii := list_ascii_of_string s.
Definition str (l : list ascii) : string := string_of_list_ascii l.

Definition len (s : string) : nat := String.length s.

(** [l[i]] for a Python [int] index: negative indices count from the end,
    an index outside [-len, len) raises [IndexError] ([None]). *)
Definition norm_index (n : nat) (i : Z) : option nat :=
  if (0 <=? i)%Z then
    if (i <? Z.of_nat n)%Z then Some (Z.to_nat i) else None
  else
    if (- Z.of_nat n <=? i)%Z then Some (Z.to_nat (Z.of_nat n + i)) else None.

Definition getitem {A} (l : list A) (i : Z) : option A :=
  match norm_index (length l) i with
  | Some k => l !! k
  | None => None
  end.

(** Slice bounds never raise: they are clamped to [0, len]. *)
Definition clamp (n : nat) (i : Z) : nat :=
  if (i <? 0)%Z then Z.to_nat (Z.max 0 (Z.of_nat n + i))
  else Nat.min (Z.to_nat i) n.

(** [s[a:b]] *)
Definition slice (s : string) (a b : Z) : string :=
  let n := len s in
  let lo := clamp n a in
  let hi := clamp n b in
  str (take (hi - lo) (drop lo (chars s))).

(** [s[:b]] *)
Definition slice_to (s : string) (b : Z) : string :=
  str (take (clamp (len s) b) (chars s)).

(** [s[a:]] *)
Definition slice_from (s : string) (a : Z) : string :=
  str (drop (clamp (len s) a) (chars s)).

Fixpoint prefixb (p s : list ascii) : bool :=
  match p, s with
  | [], _ => true
  | a :: p', b :: s' => Ascii.eqb a b && prefixb p' s'
  | _ :: _, [] => false
  end.

(** [s.endswith(suf)] *)
Definition endswith (s suf : string) : bool :=
  prefixb (rev (chars suf)) (rev (chars s)).

(** [s.startswith(p)] *)
Definition startswith (s p : string) : bool := prefixb (chars p) (chars s).

Fixpoint containsb (sub s : list ascii) : bool :=
  prefixb sub s ||
  match s with
  | [] => false
  | _ :: s' => containsb sub s'
  end.

(** [sub in s] *)
Definition contains (sub s : string) : bool := containsb (chars sub) (chars s).

(** [c.isspace()] on the 8-bit range: TAB, LF, VT, FF, CR, FS, GS, RS, US
    and the space. *)
Definition isspace (c : ascii) : bool :=
  let n := nat_of_ascii c in
  ((9 <=? n)%nat && (n <=? 13)%nat) || ((28 <=? n)%nat && (n <=? 32)%nat).

Fixpoint lstrip_chars (l : list ascii) : list ascii :=
  match l with
  | c :: l' => if isspace c then lstrip_chars l' else l
  | [] => []
  end.

(** [s.strip()] *)
Definition strip (s : string) : string :=
  str (rev (lstrip_chars (rev (lstrip_chars (chars s))))).

(** [bytes.decode('ascii')]: [UnicodeDecodeError] ([None]) on a byte
    above 127. *)
Definition decode_ascii (b : string) : option string :=
  if forallb (fun c => (nat_of_ascii c <? 128)%nat) (chars b) then Some b else None.

(** Truthiness of an [Optional[str]]: [None] and [''] are falsy. *)
Definition truthy (o : option string) : bool :=
  match o with
  | Some s => negb (String.eqb s "")
  | None => false
  end.

(** *** Insertion-ordered dictionaries

    A Python [dict] iterates in insertion order, and assigning to an
    existing key keeps the key's position. *)
Section Dict.
Context {K V : Type} `{EqDecision K}.

Definition dict := list (K * V).

Fixpoint dget (d : dict) (k : K) : option V :=
  match d with
  | [] => None
  | (k', v) :: d' => if decide (k' = k) then Some v else dget d' k
  end.

Fixpoint dset (d : dict) (k : K) (v : V) : dict :=
  match d with
  | [] => [(k, v)]
  | (k', v') :: d' =>
      if decide (k' = k) then (k', v) :: d' else (k', v') :: dset d' k v
  end.

Definition dmem (d : dict) (k : K) : bool := bool_decide (is_Some (dget d k)).

Definition keys (d : dict) : list K := map fst d.
Definition values (d : dict) : list V := map snd d.
Definition items (d : dict) : list (K * V) := d.
End Dict.
Arguments dict : clear implicits.

End Py.

(* ================================================================== *)
(** ** Exceptions and results *)
(* ================================================================== *)

(** The exceptions the core raises or lets through.  The call surface names
    them [ContentNotFound] ([FileNotFoundError] out of [get_content]),
    [InvalidPattern] ([ValueError]), [SaveFailed] ([IOError], which carries
    its cause) and [InvalidContainer] ([InvalidEpubFileError]). *)
Inductive exn :=
| FileNotFoundError (msg : string)
| KeyError (key : string)
| IndexError
| TypeError
| ValueError (msg : string)
| BadZipFile
| OSError (msg : string)
| IOError (msg : string) (cause : exn)
| EpubLoaderError (msg : string)
| InvalidEpubFileError (msg : string).

(** [str(e)], used when [save] formats its message. *)
Definition exn_str (e : exn) : string :=
  match e with
  | FileNotFoundError m | ValueError m | OSError m | IOError m _
  | EpubLoaderError m | InvalidEpubFileError m => m
  | KeyError k => "'" ++ k ++ "'"
  | IndexError => "list index out of range"
  | TypeError => "argument of type 'NoneType' is not iterable"
  | BadZipFile => "File is not a zip file"
  end.

Inductive result (A : Type) :=
| Ok (a : A)
| Raise (e : exn).
Arguments Ok {A} a.
Arguments Raise {A} e.

(* ================================================================== *)
(** ** [urllib.parse.unquote] and [pathlib.PurePosixPath] *)
(* ================================================================== *)

Module PathLib.

Definition hex_digit (c : ascii) : option nat :=
  let n := nat_of_ascii c in
  if ((48 <=? n) && (n <=? 57))%nat then Some (n - 48)
  else if ((65 <=? n) && (n <=? 70))%nat then Some (n - 55)
  else if ((97 <=? n) && (n <=? 102))%nat then Some (n - 87)
  else None.

Fixpoint unquote_chars (l : list ascii) : list ascii :=
  match l with
  | [] => []
  | c :: l' =>
      let keep := c :: unquote_chars l' in
      if Ascii.eqb c "%" then
        match l' with
        | h1 :: ((h2 :: _) as t) =>
            match hex_digit h1, hex_digit h2 with
            | Some a, Some b =>
                ascii_of_nat (16 * a + b) :: tl (unquote_chars t)
            | _, _ => keep
            end
        | _ => keep
        end
      else keep
  end.

(** [urllib.parse.unquote]: every [%XX] escape becomes the byte [XX]; a
    ['%'] not followed by two hexadecimal digits stays.  (The library then
    decodes the bytes as UTF-8, which is the identity on 8-bit text.) *)
Definition unquote (s : string) : string :=
  Py.str (unquote_chars (Py.chars s)).

(** Splitting on ['/']. *)
Fixpoint split_slash (cur : list ascii) (l : list ascii) : list string :=
  match l with
  | [] => [Py.str (rev cur)]
  | c :: l' =>
      if Ascii.eqb c "/" then Py.str (rev cur) :: split_slash [] l'
      else split_slash (c :: cur) l'
  end.

(** A pure POSIX path: an optional root and its segments.  Parsing drops
    empty and ['.'] segments and keeps ['..'] segments. *)
Record path := { root : string; parts : list string }.

Definition keep_segment (seg : string) : bool :=
  negb (String.eqb seg "") && negb (String.eqb seg ".").

Definition parse_root (s : string) : string :=
  if Py.startswith s "///" then "/"
  else if Py.startswith s "//" then "//"
  else if Py.startswith s "/" then "/"
  else "".

(** [Path(s)] *)
Definition Path (s : string) : path :=
  {| root := parse_root s;
     parts := filter (fun seg => keep_segment seg = true) (split_slash [] (Py.chars s)) |}.

(** [a / b]: an absolute right operand replaces the left one. *)
Definition join (a : path) (b : string) : path :=
  let pb := Path b in
  if String.eqb (root pb) "" then {| root := root a; parts := parts a ++ parts pb |}
  else pb.

Fixpoint join_with (sep : string) (l : list string) : string :=
  match l with
  | [] => ""
  | [x] => x
  | x :: l' => x ++ sep ++ join_with sep l'
  end.

(** [p.as_posix()], which is [str(p)] for POSIX paths. *)
Definition as_posix (p : path) : string :=
  match root p, parts p with
  | "", [] => "."
  | r, ps => r ++ join_with "/" ps
  end.

(** [p.parent] *)
Definition parent (p : path) : path :=
  {| root := root p; parts := removelast (parts p) |}.

(** [p.with_suffix(p.suffix + ext)] for a path with a file name: the name
    gains [ext] at its end. *)
Definition add_suffix (p : string) (ext : string) : string := p ++ ext.

End PathLib.

(* ================================================================== *)
(** ** [zipfile] archives and the file system *)
(* ================================================================== *)

Module Zip.

Definition ZIP_STORED : Z := 0.
Definition ZIP_DEFLATED : Z := 8.

Record ZipInfo := { filename : string; compress_type : Z }.

(** A member is its header and its decompressed bytes; an archive lists
    its members in central-directory order. *)
Definition member : Type := ZipInfo * string.
Definition archive : Type := list member.

(** [zf.infolist()] *)
Definition infolist (ar : archive) : list ZipInfo := map fst ar.

(** [zf.getinfo(name)]: [NameToInfo] keeps the last header of a name. *)
Fixpoint getinfo (ar : archive) (name : string) : option member :=
  match ar with
  | [] => None
  | m :: ar' =>
      match getinfo ar' name with
      | Some m' => Some m'
      | None => if String.eqb (filename (fst m)) name then Some m else None
      end
  end.

(** [zf.read(name)] *)
Definition read (ar : archive) (name : string) : result string :=
  match getinfo ar name with
  | Some m => Ok (snd m)
  | None => Raise (KeyError ("There is no item named " ++ name ++ " in the archive"))
  end.

(** The member [writestr(zinfo, data, compress_type)] adds. *)
Definition with_info (zi : ZipInfo) (data : string) (ct : option Z) : member :=
  ({| filename := filename zi; compress_type := default (compress_type zi) ct |}, data).

(** The member [writestr(arcname, data)] adds to an archive opened with
    compression [compression]. *)
Definition with_name (compression : Z) (arcname : string) (data : string) : member :=
  ({| filename := arcname; compress_type := compression |}, data).

End Zip.

(** A file is a ZIP container or something else. *)
Inductive file :=
| ZipFile (ar : Zip.archive)
| RawFile (data : string).

(** The disk: files by path, and [quota], the number of write operations
    (creating a file, adding a member, closing an archive) that still
    succeed before the device reports an error; [None] is a device that
    never fails. *)
Record FS := { files : gmap string file; quota : option nat }.

Definition fs_put (p : string) (f : file) (d : FS) : FS :=
  {| files := <[p := f]> (files d); quota := quota d |}.

Definition fs_remove (p : string) (d : FS) : FS :=
  {| files := delete p (files d); quota := quota d |}.

Definition fs_exists (p : string) (d : FS) : bool :=
  bool_decide (is_Some (files d !! p)).

(** [os.replace(src, dst)] *)
Definition fs_replace (src dst : string) (d : FS) : FS :=
  match files d !! src with
  | Some f => {| files := <[dst := f]> (delete src (files d)); quota := quota d |}
  | None => d
  end.

(** One write operation against the quota. *)
Definition fs_charge (d : FS) : option FS :=
  match quota d with
  | None => Some d
  | Some 0 => None
  | Some (S n) => Some {| files := files d; quota := Some n |}
  end.

(* ================================================================== *)
(** ** The markup library ([bs4.BeautifulSoup] over [lxml]) *)
(* ================================================================== *)

Module Soup.

(** A parsed document: elements and the strings between them.  [attrs]
    is the raw attribute text of the start tag. *)
Inductive node :=
| Text (s : string)
| Tag (name : string) (attrs : string) (children : list node).

(** The [BeautifulSoup] object is itself a tag, named ["[document]"]. *)
Definition document (children : list node) : node := Tag "[document]" "" children.

(** A string of the tree, as [find_all] returns it: [node.parent.name]
    and the text. *)
Record NavigableString := { parent_name : string; text : string }.

Fixpoint strings_under (parent : string) (n : node) : list NavigableString :=
  match n with
  | Text s => [{| parent_name := parent; text := s |}]
  | Tag nm _ kids => flat_map (strings_under nm) kids
  end.

(** [soup.find_all(string=True)]: every string of the document, in
    document order, whatever element holds it. *)
Definition find_all_strings (soup : node) : list NavigableString :=
  strings_under "" soup.

(** Writing a sequence of texts back over the strings of a tree, in
    document order. *)
Fixpoint refill (n : node) (ss : list string) : node * list string :=
  match n with
  | Text s =>
      match ss with
      | s' :: rest => (Text s', rest)
      | [] => (Text s, [])
      end
  | Tag nm at_ kids =>
      let fix go (ks : list node) (ss : list string) : list node * list string :=
        match ks with
        | [] => ([], ss)
        | k :: ks' =>
            let '(k', r) := refill k ss in
            let '(ks'', r') := go ks' r in
            (k' :: ks'', r')
        end in
      let '(kids', rest) := go kids ss in
      (Tag nm at_ kids', rest)
  end.

(** [text_nodes[i].replace_with(new)]: the [i]-th string of the document
    becomes [new]; the other strings and the elements stay. *)
Definition replace_with (soup : node) (i : nat) (new : string) : node :=
  fst (refill soup (<[i := new]> (map text (find_all_strings soup)))).

(** What the engines use of the library: [BeautifulSoup(content, "lxml")]
    and [soup.prettify(encoding="utf-8")]. *)
Class Markup := {
  parse : string -> node;
  prettify : node -> string
}.

(** *** A reference instance

    A tag-soup reader and an indenting printer for documents made of
    elements and text (no comments, declarations or entities). *)

Inductive token :=
| TOpen (name attrs : string) (selfclose : bool)
| TClose (name : string)
| TText (s : string)
| TDecl.

Definition void_names : list string :=
  ["br"; "hr"; "img"; "meta"; "link"; "input"].

Fixpoint span_name (l : list ascii) : list ascii * list ascii :=
  match l with
  | [] => ([], [])
  | c :: l' =>
      if Py.isspace c || Ascii.eqb c "/" then ([], l)
      else let '(n, r) := span_name l' in (c :: n, r)
  end.

Definition tag_token (body : list ascii) : token :=
  match body with
  | "/"%char :: r => TClose (Py.strip (Py.str r))
  | "!"%char :: _ | "?"%char :: _ => TDecl
  | _ =>
      let '(n, r) := span_name body in
      let name := Py.str n in
      match rev r with
      | "/"%char :: r' => TOpen name (Py.str (rev r')) true
      | _ => TOpen name (Py.str r) (bool_decide (name ∈ void_names))
      end
  end.

Definition text_token (cur : list ascii) : list token :=
  match cur with
  | [] => []
  | _ => [TText (Py.str (rev cur))]
  end.

Fixpoint lex (intag : bool) (cur : list ascii) (l : list ascii) : list token :=
  match l with
  | [] => if intag then [TText (Py.str ("<"%char :: rev cur))] else text_token cur
  | c :: l' =>
      if intag then
        if Ascii.eqb c ">" then tag_token (rev cur) :: lex false [] l'
        else lex true (c :: cur) l'
      else
        if Ascii.eqb c "<" then text_token cur ++ lex true [] l'
        else lex false (c :: cur) l'
  end.

(** An open element: its name, attributes and the children read so far,
    last first. *)
Definition frame : Type := string * string * list node.

Definition add_child (n : node) (f : frame) : frame :=
  let '(nm, at_, kids) := f in (nm, at_, n :: kids).

Definition close_top (stack : list frame) : list frame :=
  match stack with
  | (nm, at_, kids) :: parent :: rest => add_child (Tag nm at_ (rev kids)) parent :: rest
  | _ => stack
  end.

Fixpoint open_depth (name : string) (stack : list frame) : option nat :=
  match stack with
  | [] | [_] => None
  | (nm, _, _) :: rest =>
      if String.eqb nm name then Some 1 else S <$> open_depth name rest
  end.

Fixpoint build (toks : list token) (stack : list frame) : list frame :=
  match toks with
  | [] => stack
  | t :: toks' =>
      let stack' :=
        match t with
        | TText s =>
            match stack with
            | f :: rest => add_child (Text s) f :: rest
            | [] => stack
            end
        | TOpen nm at_ true =>
            match stack with
            | f :: rest => add_child (Tag nm at_ []) f :: rest
            | [] => stack
            end
        | TOpen nm at_ false => (nm, at_, []) :: stack
        | TClose nm =>
            match open_depth nm stack with
            | Some d => Nat.iter d close_top stack
            | None => stack
            end
        | TDecl => stack
        end in
      build toks' stack'
  end.

Definition ref_parse (content : string) : node :=
  let stack := build (lex false [] (Py.chars content)) [("[document]", "", [])] in
  match Nat.iter (length stack) close_top stack with
  | (nm, at_, kids) :: _ => Tag nm at_ (rev kids)
  | [] => document []
  end.

Definition nl : string := String "010"%char "".

Fixpoint indent (d : nat) : string :=
  match d with
  | O => ""
  | S d' => " " +:+ indent d'
  end.

(** Every line ends with a newline. *)
Definition unlines (ls : list string) : string :=
  fold_right (fun l acc => l +:+ nl +:+ acc) "" ls.

Fixpoint pretty (d : nat) (n : node) : list string :=
  match n with
  | Text s =>
      let t := Py.strip s in
      if String.eqb t "" then [] else [indent d +:+ t]
  | Tag nm at_ kids =>
      if bool_decide (nm ∈ void_names) && bool_decide (kids = [])
      then [indent d +:+ "<" +:+ nm +:+ at_ +:+ "/>"]
      else [indent d +:+ "<" +:+ nm +:+ at_ +:+ ">"]
             ++ flat_map (pretty (S d)) kids
             ++ [indent d +:+ "</" +:+ nm +:+ ">"]
  end.

Definition ref_prettify (soup : node) : string :=
  match soup with
  | Text _ => unlines (pretty 0 soup)
  | Tag _ _ kids => unlines (flat_map (pretty 0) kids)
  end.

End Soup.

(* ================================================================== *)
(** ** The pattern library ([re]) *)
(* ================================================================== *)

Module Re.

(** The characters [re.escape] protects. *)
Definition special_chars : list ascii :=
  Py.chars "()[]{}?*+-|^$\.&~# " ++ map ascii_of_nat [9; 10; 11; 12; 13].

Definition is_special (c : ascii) : bool := bool_decide (c ∈ special_chars).

(** [re.escape(s)] *)
Definition escape (s : string) : string :=
  Py.str (flat_map (fun c => if is_special c then ["\"%char; c] else [c]) (Py.chars s)).

(** What the engines use of the library.  [compile src ignorecase] is
    [re.compile(src, re.IGNORECASE if ignorecase else 0)], with [None]
    for [re.error]; [finditer] gives the [(m.start(), m.end())] spans of
    the matches, in order; [subn p repl s] is [p.subn(repl, s)]. *)
Class Engine := {
  pattern : Type;
  compile : string -> bool -> option pattern;
  finditer : pattern -> string -> list (nat * nat);
  subn : pattern -> string -> string -> string * nat
}.

(** [m.group(0)] is the matched slice of the subject. *)
Definition group0 (subject : string) (span : nat * nat) : string :=
  Py.slice subject (Z.of_nat (fst span)) (Z.of_nat (snd span)).

(** A match lies inside its subject. *)
Class Lawful (E : Engine) : Prop := {
  finditer_span : forall (p : pattern) (s : string) (a b : nat),
    In (a, b) (finditer p s) -> a <= b /\ b <= Py.len s
}.

(** *** A reference instance

    Patterns are sequences of literal characters, ['.'], starred single
    characters and [\b]; this covers every pattern the engines build from
    a literal query.  Sources outside the fragment are rejected. *)

Inductive single :=
| Lit (c : ascii)
| AnyChar.

Inductive atom :=
| One (x : single)
| Many (x : single)
| Boundary.

Definition is_alnum (c : ascii) : bool :=
  let n := nat_of_ascii c in
  (((48 <=? n) && (n <=? 57)) || ((65 <=? n) && (n <=? 90)) || ((97 <=? n) && (n <=? 122)))%nat.

Definition is_word (c : ascii) : bool := is_alnum c || Ascii.eqb c "_".

Definition lower (c : ascii) : ascii :=
  let n := nat_of_ascii c in
  if ((65 <=? n) && (n <=? 90))%nat then ascii_of_nat (n + 32) else c.

Inductive ptoken :=
| PAtom (a : atom)
| PStar
| PBad.

Definition unsupported : list ascii := Py.chars "()[]{}?+|^$".

Fixpoint ptokens (l : list ascii) : list ptoken :=
  match l with
  | [] => []
  | c :: l' =>
      if Ascii.eqb c "\" then
        match l' with
        | e :: l'' =>
            (if Ascii.eqb e "b" then PAtom Boundary
             else if is_alnum e then PBad
             else PAtom (One (Lit e))) :: ptokens l''
        | [] => [PBad]
        end
      else if Ascii.eqb c "." then PAtom (One AnyChar) :: ptokens l'
      else if Ascii.eqb c "*" then PStar :: ptokens l'
      else if bool_decide (c ∈ unsupported) then PBad :: ptokens l'
      else PAtom (One (Lit c)) :: ptokens l'
  end.

Fixpoint fold_stars (ts : list ptoken) : option (list atom) :=
  match ts with
  | [] => Some []
  | PAtom (One x) :: PStar :: r => cons (Many x) <$> fold_stars r
  | PAtom a :: r => cons a <$> fold_stars r
  | PStar :: _ | PBad :: _ => None
  end.

Record ref_pattern := { atoms : list atom; ignorecase : bool }.

Definition ref_compile (src : string) (ic : bool) : option ref_pattern :=
  (fun ats => {| atoms := ats; ignorecase := ic |}) <$> fold_stars (ptokens (Py.chars src)).

Definition single_ok (ic : bool) (x : single) (c : ascii) : bool :=
  match x with
  | AnyChar => negb (Ascii.eqb c "010")
  | Lit l => if ic then Ascii.eqb (lower l) (lower c) else Ascii.eqb l c
  end.

Definition word_opt (o : option ascii) : bool :=
  match o with
  | Some c => is_word c
  | None => false
  end.

(** [\b]: exactly one side is a word character. *)
Definition at_boundary (prev : option ascii) (s : list ascii) : bool :=
  xorb (word_opt prev) (word_opt (head s)).

(** A backtracking match anchored at the head of [s], greedy on stars.
    [consumed] counts the characters taken so far and [ok] filters the
    final length; [prev] is the character before [s]. *)
Fixpoint match_here (ic : bool) (ats : list atom) (ok : nat -> bool)
    (consumed : nat) (prev : option ascii) (s : list ascii) {struct ats} : option nat :=
  match ats with
  | [] => if ok consumed then Some consumed else None
  | Boundary :: r =>
      if at_boundary prev s then match_here ic r ok consumed prev s else None
  | One x :: r =>
      match s with
      | c :: s' =>
          if single_ok ic x c then match_here ic r ok (S consumed) (Some c) s' else None
      | [] => None
      end
  | Many x :: r =>
      (fix star (consumed : nat) (prev : option ascii) (s : list ascii) {struct s} : option nat :=
         match s with
         | c :: s' =>
             if single_ok ic x c then
               match star (S consumed) (Some c) s' with
               | Some n => Some n
               | None => match_here ic r ok consumed prev s
               end
             else match_here ic r ok consumed prev s
         | [] => match_here ic r ok consumed prev s
         end) consumed prev s
  end.

(** The scan of [finditer]: [pos] is the offset of [s] in the subject and
    [skip] the number of characters the previous match still covers.  An
    empty match is followed by a second attempt at the same offset that
    must advance. *)
Fixpoint scan (p : ref_pattern) (prev : option ascii) (s : list ascii)
    (pos skip : nat) {struct s} : list (nat * nat) :=
  let next k :=
    match s with
    | c :: s' => scan p (Some c) s' (S pos) k
    | [] => []
    end in
  match skip with
  | S k => next k
  | O =>
      match match_here (ignorecase p) (atoms p) (fun _ => true) 0 prev s with
      | Some O =>
          (pos, pos) ::
          match match_here (ignorecase p) (atoms p) (fun n => 0 <? n)%nat 0 prev s with
          | Some n => (pos, pos + n) :: next (n - 1)
          | None => next 0
          end
      | Some (S n) => (pos, pos + S n) :: next n
      | None => next 0
      end
  end.

Definition ref_finditer (p : ref_pattern) (s : string) : list (nat * nat) :=
  scan p None (Py.chars s) 0 0.

(** The subject with every span replaced by [repl]. *)
Fixpoint splice (cs : list ascii) (last : nat) (spans : list (nat * nat))
    (repl : list ascii) : list ascii :=
  match spans with
  | [] => drop last cs
  | (a, b) :: r => take (a - last) (drop last cs) ++ repl ++ splice cs b r repl
  end.

(** The replacement is taken literally, as [re] does for a replacement
    without backslashes. *)
Definition ref_subn (p : ref_pattern) (repl s : string) : string * nat :=
  let spans := ref_finditer p s in
  (Py.str (splice (Py.chars s) 0 spans (Py.chars repl)), length spans).

Definition reference : Engine :=
  {| pattern := ref_pattern;
     compile := ref_compile;
     finditer := ref_finditer;
     subn := ref_subn |}.

End Re.

(* ================================================================== *)
(** ** [epub_model.py] and [search_models.py] *)
(* ================================================================== *)

Module Model.

Record EpubMetadata := {
  title : option string;
  creator : option string;
  language : option string;
  identifier : option string;
  publisher : option string;
  date : option string;
  rights : option string;
  all_metadata : Py.dict string (list string)
}.

(** The loader fills the fields from XML attributes without checking
    them, so each of them may hold [None]. *)
Record ManifestItem := {
  id : option string;
  href : option string;
  media_type : option string;
  properties : option string
}.

Record SpineItem := { idref : option string; linear : bool }.

(** The fields of [ContentManager]; [_zipfile] is the archive as it was
    when the handle was opened. *)
Record ContentManager := {
  _content_cache : Py.dict string string;
  _zipfile : option Zip.archive
}.

Record EpubBook := {
  filepath : string;
  opf_dir : string;
  metadata : EpubMetadata;
  manifest : Py.dict (option string) ManifestItem;
  spine : list SpineItem;
  toc : list (Py.dict string string);
  is_modified : bool;
  content_manager : ContentManager
}.

Record SearchResult := {
  file_path : string;
  item_href : string;
  node_index : Z;
  match_start : Z;
  match_end : Z;
  match_text : string;
  context : string
}.

Definition with_cache (c : Py.dict string string) (b : EpubBook) : EpubBook :=
  {| filepath := filepath b; opf_dir := opf_dir b; metadata := metadata b;
     manifest := manifest b; spine := spine b; toc := toc b;
     is_modified := is_modified b;
     content_manager :=
       {| _content_cache := c; _zipfile := _zipfile (content_manager b) |} |}.

Definition with_zipfile (z : option Zip.archive) (b : EpubBook) : EpubBook :=
  {| filepath := filepath b; opf_dir := opf_dir b; metadata := metadata b;
     manifest := manifest b; spine := spine b; toc := toc b;
     is_modified := is_modified b;
     content_manager :=
       {| _content_cache := _content_cache (content_manager b); _zipfile := z |} |}.

Definition with_modified (m : bool) (b : EpubBook) : EpubBook :=
  {| filepath := filepath b; opf_dir := opf_dir b; metadata := metadata b;
     manifest := manifest b; spine := spine b; toc := toc b;
     is_modified := m;
     content_manager := content_manager b |}.

End Model.

(* ================================================================== *)
(** ** The world and its monad *)
(* ================================================================== *)

(** The core runs against one open book and the disk.  A computation
    returns a value or raises, and leaves a world either way: what was
    mutated before an exception stays mutated. *)
Record World := { disk : FS; book : Model.EpubBook }.

Definition M (A : Type) : Type := World -> result A * World.

Global Instance M_ret : MRet M := fun A a w => (Ok a, w).

Global Instance M_bind : MBind M := fun A B f c w =>
  match c w with
  | (Ok a, w') => f a w'
  | (Raise e, w') => (Raise e, w')
  end.

Definition raise {A} (e : exn) : M A := fun w => (Raise e, w).
Definition get_world : M World := fun w => (Ok w, w).
Definition set_book (f : Model.EpubBook -> Model.EpubBook) : M unit :=
  fun w => (Ok tt, {| disk := disk w; book := f (book w) |}).
Definition set_disk (f : FS -> FS) : M unit :=
  fun w => (Ok tt, {| disk := f (disk w); book := book w |}).

(** [try: c  except <handled>: h e]; an exception [handler] does not take
    is raised again. *)
Definition try_except {A} (c : M A) (handler : exn -> option (M A)) : M A :=
  fun w =>
    match c w with
    | (Ok a, w') => (Ok a, w')
    | (Raise e, w') =>
        match handler e with
        | Some h => h w'
        | None => (Raise e, w')
        end
    end.

Definition cache (w : World) : Py.dict string string :=
  Model._content_cache (Model.content_manager (book w)).

(* ================================================================== *)
(** ** [content_manager.py] *)
(* ================================================================== *)

Module ContentManager.

(** The [zipfile] property: opens the archive at [filepath] on first
    use and keeps the handle. *)
Definition zipfile : M Zip.archive :=
  w ← get_world;
  match Model._zipfile (Model.content_manager (book w)) with
  | Some ar => mret ar
  | None =>
      match files (disk w) !! Model.filepath (book w) with
      | Some (ZipFile ar) =>
          set_book (Model.with_zipfile (Some ar));; mret ar
      | Some (RawFile _) => raise BadZipFile
      | None =>
          raise (FileNotFoundError
                   ("No such file or directory: '" +:+ Model.filepath (book w) +:+ "'"))
      end
  end.

(** The archive path [get_content] reads for an href. *)
Definition full_path (opf_dir item_href : string) : string :=
  let href_path := PathLib.unquote item_href in
  PathLib.as_posix (PathLib.join (PathLib.Path opf_dir) href_path).

Definition get_content (item_href : string) : M string :=
  w ← get_world;
  match Py.dget (cache w) item_href with
  | Some content => mret content
  | None =>
      let full_path := full_path (Model.opf_dir (book w)) item_href in
      zf ← zipfile;
      match Zip.read zf full_path with
      | Ok content =>
          set_book (fun b => Model.with_cache (Py.dset (Model._content_cache (Model.content_manager b)) item_href content) b);;
          mret content
      | Raise (KeyError _) =>
          raise (FileNotFoundError
                   ("Could not find '" +:+ full_path +:+ "' in the EPUB archive."))
      | Raise e => raise e
      end
  end.

Definition update_content (item_href : string) (new_content : string) : M unit :=
  set_book (fun b => Model.with_cache (Py.dset (Model._content_cache (Model.content_manager b)) item_href new_content) b);;
  set_book (Model.with_modified true).

(** [get_all_content]: the manifest itself. *)
Definition get_all_content : M (Py.dict (option string) Model.ManifestItem) :=
  w ← get_world; mret (Model.manifest (book w)).

(** [_find_manifest_item_by_href]: the first item of the manifest, in its
    order, whose href is [href]. *)
Definition _find_manifest_item_by_href (href : string) : M (option Model.ManifestItem) :=
  w ← get_world;
  mret (List.find (fun item => bool_decide (Model.href item = Some href))
                  (Py.values (Model.manifest (book w)))).

(** [close]: the handle is dropped. *)
Definition close : M unit := set_book (Model.with_zipfile None).

End ContentManager.

(* ================================================================== *)
(** ** [search_engine.py] *)
(* ================================================================== *)

(** What a generator did: the values it yielded and the exception that
    ended it, if one did. *)
Record trace (A : Type) := { yielded : list A; raised : option exn }.
Arguments yielded {A} t.
Arguments raised {A} t.

(** [enumerate(l)] *)
Definition enumerate {A} (l : list A) : list (nat * A) := imap pair l.

(** [get_content(item.href)]; an item without an href makes [unquote]
    raise [TypeError]. *)
Definition item_content (item : Model.ManifestItem) : M string :=
  match Model.href item with
  | Some h => ContentManager.get_content h
  | None => raise TypeError
  end.

Definition item_href_str (item : Model.ManifestItem) : string :=
  default "" (Model.href item).

(** [except (FileNotFoundError, KeyError): <fallback>] *)
Definition missing_content {A} (fallback : M A) (e : exn) : option (M A) :=
  match e with
  | FileNotFoundError _ | KeyError _ => Some fallback
  | _ => None
  end.

Module SearchEngine.
Section WithLibraries.
Context {MK : Soup.Markup} {RE : Re.Engine}.

Definition _compile_search_pattern (query : string)
    (case_sensitive whole_word regex : bool) : result Re.pattern :=
  let ignorecase := negb case_sensitive in
  let query := if regex then query else Re.escape query in
  let query := if whole_word then "\b" +:+ query +:+ "\b" else query in
  match Re.compile query ignorecase with
  | Some p => Ok p
  | None => Raise (ValueError "Invalid regular expression")
  end.

(** The results of one text node: one per match of [finditer]. *)
Definition node_results (href : string) (search_pattern : Re.pattern)
    (i : nat) (node : Soup.NavigableString) : list Model.SearchResult :=
  map (fun span =>
         {| Model.file_path := href;
            Model.item_href := href;
            Model.node_index := Z.of_nat i;
            Model.match_start := Z.of_nat (fst span);
            Model.match_end := Z.of_nat (snd span);
            Model.match_text := Re.group0 (Soup.text node) span;
            Model.context := Soup.text node |})
      (Re.finditer search_pattern (Soup.text node)).

Definition _search_in_file (item : Model.ManifestItem)
    (search_pattern : Re.pattern) : M (list Model.SearchResult) :=
  try_except
    (content ← item_content item;
     let soup := Soup.parse content in
     let text_nodes := Soup.find_all_strings soup in
     mret (flat_map (fun '(i, node) => node_results (item_href_str item) search_pattern i node)
                    (enumerate text_nodes)))
    (missing_content (mret [])).

(** The loop of [search] over [manifest.values()]. *)
Fixpoint search_items (search_pattern : Re.pattern)
    (items : list Model.ManifestItem) (w : World) : trace Model.SearchResult * World :=
  match items with
  | [] => ({| yielded := []; raised := None |}, w)
  | item :: rest =>
      match Model.media_type item with
      | None => ({| yielded := []; raised := Some TypeError |}, w)
      | Some mt =>
          if Py.contains "html" mt then
            match _search_in_file item search_pattern w with
            | (Ok rs, w') =>
                let '(t, w'') := search_items search_pattern rest w' in
                ({| yielded := rs ++ yielded t; raised := raised t |}, w'')
            | (Raise e, w') => ({| yielded := []; raised := Some e |}, w')
            end
          else search_items search_pattern rest w
      end
  end.

Definition search (query : string) (case_sensitive whole_word regex : bool)
    (w : World) : trace Model.SearchResult * World :=
  match _compile_search_pattern query case_sensitive whole_word regex with
  | Raise e => ({| yielded := []; raised := Some e |}, w)
  | Ok search_pattern =>
      search_items search_pattern (Py.values (Model.manifest (book w))) w
  end.

End WithLibraries.
End SearchEngine.

(* ================================================================== *)
(** ** [replace_engine.py] *)
(* ================================================================== *)

Module ReplaceEngine.
Section WithLibraries.
Context {MK : Soup.Markup} {RE : Re.Engine}.

(** One turn of the loop over [text_nodes]: the soup so far and the
    running count. *)
Definition replace_node (search_pattern : Re.pattern) (replace : string)
    (acc : Soup.node * nat) (entry : nat * Soup.NavigableString) : Soup.node * nat :=
  let '(soup, file_replacements) := acc in
  let '(i, node) := entry in
  if bool_decide (Soup.parent_name node ∈ ["style"; "script"]) then acc
  else
    let '(new_content, num_subs) := Re.subn search_pattern replace (Soup.text node) in
    if (0 <? num_subs)%nat
    then (Soup.replace_with soup i new_content, file_replacements + num_subs)
    else acc.

Definition _replace_in_file (item : Model.ManifestItem)
    (search_pattern : Re.pattern) (replace : string) : M nat :=
  try_except
    (content ← item_content item;
     let soup := Soup.parse content in
     let text_nodes := Soup.find_all_strings soup in
     let '(soup', file_replacements) :=
       fold_left (replace_node search_pattern replace) (enumerate text_nodes) (soup, 0) in
     (if (0 <? file_replacements)%nat
      then ContentManager.update_content (item_href_str item) (Soup.prettify soup')
      else mret tt);;
     mret file_replacements)
    (missing_content (mret 0)).

Fixpoint replace_items (search_pattern : Re.pattern) (replace : string)
    (items : list Model.ManifestItem) (total_replacements : nat) : M nat :=
  match items with
  | [] => mret total_replacements
  | item :: rest =>
      match Model.media_type item with
      | None => raise TypeError
      | Some mt =>
          if Py.contains "html" mt then
            n ← _replace_in_file item search_pattern replace;
            replace_items search_pattern replace rest (total_replacements + n)
          else replace_items search_pattern replace rest total_replacements
      end
  end.

Definition replace_all (find replace : string)
    (case_sensitive whole_word regex : bool) : M nat :=
  let ignorecase := negb case_sensitive in
  let find := if regex then find else Re.escape find in
  let find := if whole_word then "\b" +:+ find +:+ "\b" else find in
  match Re.compile find ignorecase with
  | None => raise (ValueError "Invalid regular expression")
  | Some search_pattern =>
      w ← get_world;
      replace_items search_pattern replace (Py.values (Model.manifest (book w))) 0
  end.

Fixpoint batch_loop (operations : list (string * string))
    (case_sensitive whole_word regex : bool) (total_replacements : nat) : M nat :=
  match operations with
  | [] => mret total_replacements
  | (find, replace) :: rest =>
      n ← replace_all find replace case_sensitive whole_word regex;
      batch_loop rest case_sensitive whole_word regex (total_replacements + n)
  end.

Definition batch_replace_all (operations : list (string * string))
    (case_sensitive whole_word regex : bool) : M nat :=
  batch_loop operations case_sensitive whole_word regex 0.

Definition replace_single (search_result : Model.SearchResult)
    (replace_text : string) : M nat :=
  try_except
    (content ← ContentManager.get_content (Model.item_href search_result);
     let soup := Soup.parse content in
     let text_nodes := Soup.find_all_strings soup in
     if (Z.of_nat (length text_nodes) <=? Model.node_index search_result)%Z then mret 0
     else
       match Py.norm_index (length text_nodes) (Model.node_index search_result) with
       | None => raise IndexError
       | Some k =>
           match text_nodes !! k with
           | None => raise IndexError
           | Some node_to_replace =>
               let original_text := Soup.text node_to_replace in
               if negb (String.eqb
                          (Py.slice original_text (Model.match_start search_result)
                                    (Model.match_end search_result))
                          (Model.match_text search_result))
               then mret 0
               else
                 let new_text :=
                   Py.slice_to original_text (Model.match_start search_result)
                   +:+ replace_text
                   +:+ Py.slice_from original_text (Model.match_end search_result) in
                 let soup' := Soup.replace_with soup k new_text in
                 ContentManager.update_content (Model.item_href search_result)
                                               (Soup.prettify soup');;
                 set_book (Model.with_modified true);;
                 mret 1
           end
       end)
    (fun e =>
       match e with
       | FileNotFoundError _ | KeyError _ | IndexError => Some (mret 0)
       | _ => None
       end).

End WithLibraries.
End ReplaceEngine.

(* ================================================================== *)
(** ** [epub_saver.py] *)
(* ================================================================== *)

(** [for x in l: body x] *)
Fixpoint for_each {A} (l : list A) (body : A -> M unit) : M unit :=
  match l with
  | [] => mret tt
  | x :: l' => body x;; for_each l' body
  end.

Module EpubSaver.

Definition archive_at (path : string) (d : FS) : Zip.archive :=
  match files d !! path with
  | Some (ZipFile ar) => ar
  | _ => []
  end.

(** [zipfile.ZipFile(path, "r")] *)
Definition open_read (path : string) : M Zip.archive :=
  w ← get_world;
  match files (disk w) !! path with
  | Some (ZipFile ar) => mret ar
  | Some (RawFile _) => raise BadZipFile
  | None => raise (FileNotFoundError ("No such file or directory: '" +:+ path +:+ "'"))
  end.

Definition no_space : exn := OSError "No space left on device".

(** One write operation on the device. *)
Definition charge : M unit :=
  w ← get_world;
  match fs_charge (disk w) with
  | Some d => set_disk (fun _ => d)
  | None => raise no_space
  end.

(** [zipfile.ZipFile(path, "w", ...)]: the file is created empty. *)
Definition open_write (path : string) : M unit :=
  charge;; set_disk (fs_put path (ZipFile [])).

(** [new_zip.writestr(...)]: the member is added at the end. *)
Definition writestr (path : string) (m : Zip.member) : M unit :=
  charge;; set_disk (fun d => fs_put path (ZipFile (archive_at path d ++ [m])) d).

(** [new_zip.close()] writes the central directory. *)
Definition close_write (path : string) : M unit := charge.

(** [with zipfile.ZipFile(path, "w", ...) as new_zip: body]: the archive
    is closed on the way out, whether [body] raised or not, and a failure
    of the close is what propagates. *)
Definition with_new_zip (path : string) (body : M unit) : M unit :=
  open_write path;;
  try_except (body;; close_write path)
             (fun e => Some (close_write path;; raise e)).

Definition _write_mimetype (new_zip : string) (original_zip : Zip.archive) : M unit :=
  match Zip.getinfo original_zip "mimetype" with
  | None => raise (KeyError "There is no item named 'mimetype' in the archive")
  | Some mimetype =>
      let mimetype_info := fst mimetype in
      let mimetype_content := snd mimetype in
      writestr new_zip (Zip.with_info mimetype_info mimetype_content (Some Zip.ZIP_STORED))
  end.

(** The inner loop: does [filename] end with one of the hrefs? *)
Definition matches_modified (modified_files : list string) (filename : string) : bool :=
  existsb (fun href => Py.endswith filename href) modified_files.

Definition _write_unmodified_files (new_zip : string) (original_zip : Zip.archive)
    (modified_files : list string) : M unit :=
  for_each (Zip.infolist original_zip) (fun item =>
    if String.eqb (Zip.filename item) "mimetype" then mret tt
    else if matches_modified modified_files (Zip.filename item) then mret tt
    else
      match Zip.read original_zip (Zip.filename item) with
      | Ok data => writestr new_zip (Zip.with_info item data None)
      | Raise e => raise e
      end).

(** The first header whose name ends with [href]. *)
Definition found_info (original_zip : Zip.archive) (href : string) : option Zip.ZipInfo :=
  List.find (fun info => Py.endswith (Zip.filename info) href) (Zip.infolist original_zip).

Definition modified_member (original_zip : Zip.archive) (entry : string * string) : Zip.member :=
  let '(href, content) := entry in
  match found_info original_zip href with
  | Some info => Zip.with_info info content None
  | None => Zip.with_name Zip.ZIP_DEFLATED href content
  end.

Definition _write_modified_files (new_zip : string) (original_zip : Zip.archive) : M unit :=
  w ← get_world;
  for_each (Py.items (cache w)) (fun entry =>
    writestr new_zip (modified_member original_zip entry)).

Definition temp_path (filepath : string) : string := PathLib.add_suffix filepath ".tmp".
Definition backup_path (filepath : string) : string := PathLib.add_suffix filepath ".bak".

(** The two nested [with] blocks of [save]: steps 1 to 4. *)
Definition build_temp (filepath : string) : M unit :=
  original_zip ← open_read filepath;
  with_new_zip (temp_path filepath)
    (_write_mimetype (temp_path filepath) original_zip;;
     w ← get_world;
     let modified_files := Py.keys (cache w) in
     _write_unmodified_files (temp_path filepath) original_zip modified_files;;
     _write_modified_files (temp_path filepath) original_zip).

Definition save (backup : bool) : M unit :=
  w ← get_world;
  if negb (Model.is_modified (book w)) then mret tt
  else
    let original_path := Model.filepath (book w) in
    try_except
      (build_temp original_path;;
       w1 ← get_world;
       (if backup && fs_exists original_path (disk w1)
        then set_disk (fs_replace original_path (backup_path original_path))
        else mret tt);;
       set_disk (fs_replace (temp_path original_path) original_path);;
       set_book (Model.with_modified false);;
       set_book (Model.with_cache []))
      (fun e => Some (
         w2 ← get_world;
         (if fs_exists (temp_path original_path) (disk w2)
          then set_disk (fs_remove (temp_path original_path))
          else mret tt);;
         raise (IOError ("Failed to save EPUB file: " +:+ exn_str e) e))).

End EpubSaver.

(* ================================================================== *)
(** ** The XML library ([lxml.etree]) *)
(* ================================================================== *)

Module Xml.

(** An element: its tag in Clark notation ([{namespace}local]), its
    attributes, the text before its first child ([None] when there is
    none) and its child elements. *)
Inductive element :=
| Element (tag : string) (attrib : list (string * string))
          (text : option string) (children : list element).

Definition tag (e : element) : string := let 'Element t _ _ _ := e in t.
Definition attrib (e : element) : list (string * string) := let 'Element _ a _ _ := e in a.
Definition text (e : element) : option string := let 'Element _ _ t _ := e in t.
Definition children (e : element) : list element := let 'Element _ _ _ c := e in c.

(** [etree.fromstring]; [None] is [XMLSyntaxError]. *)
Class Parser := { fromstring : string -> option element }.

(** [e.get(name)] *)
Definition get (e : element) (name : string) : option string :=
  Py.dget (attrib e) name.

Fixpoint after_brace (l : list ascii) : option (list ascii) :=
  match l with
  | [] => None
  | c :: l' => if Ascii.eqb c "}" then Some l' else after_brace l'
  end.

(** [etree.QName(tag).localname] *)
Definition localname (t : string) : string :=
  match Py.chars t with
  | "{"%char :: l => match after_brace l with Some r => Py.str r | None => t end
  | _ => t
  end.

(** [e.findall(t)] and [e.find(t)] for a one-step path. *)
Definition findall (e : element) (t : string) : list element :=
  filter (fun c => tag c = t) (children e).

Definition find (e : element) (t : string) : option element :=
  head (findall e t).

(** [e.find('a/b')] *)
Definition find2 (e : element) (t1 t2 : string) : option element :=
  head (flat_map (fun c => findall c t2) (findall e t1)).

End Xml.

(* ================================================================== *)
(** ** [epub_loader.py] *)
(* ================================================================== *)

Global Instance result_ret : MRet result := fun A a => Ok a.
Global Instance result_bind : MBind result := fun A B f r =>
  match r with
  | Ok a => f a
  | Raise e => Raise e
  end.

Module EpubLoader.
Section WithParser.
Context {XP : Xml.Parser}.

Record Loader := {
  file_path : string;
  epub : option Zip.archive;
  opf_path : option string;
  opf_dir : option PathLib.path
}.

Definition container_ns : string := "{urn:oasis:names:tc:opendocument:xmlns:container}".
Definition opf_ns : string := "{http://www.idpf.org/2007/opf}".

Definition _get_opf_path (self : Loader) : result string :=
  match epub self with
  | None => Raise (EpubLoaderError "EPUB file is not loaded.")
  | Some ar =>
      container_xml ← Zip.read ar "META-INF/container.xml";
      match Xml.fromstring container_xml with
      | None => Raise (InvalidEpubFileError "META-INF/container.xml is not well-formed XML.")
      | Some tree =>
          match Xml.find2 tree (container_ns +:+ "rootfiles") (container_ns +:+ "rootfile") with
          | None =>
              Raise (InvalidEpubFileError "Could not find rootfile element in container.xml.")
          | Some rootfile_element =>
              let opf_path := Xml.get rootfile_element "full-path" in
              if Py.truthy opf_path then Ok (default "" opf_path)
              else Raise (InvalidEpubFileError
                     "Rootfile element in container.xml is missing the 'full-path' attribute.")
          end
      end
  end.

Definition empty_metadata : Model.EpubMetadata :=
  {| Model.title := None; Model.creator := None; Model.language := None;
     Model.identifier := None; Model.publisher := None; Model.date := None;
     Model.rights := None; Model.all_metadata := [] |}.

Definition metadata_mapping : Py.dict string string :=
  [("title", "title"); ("creator", "creator"); ("language", "language");
   ("identifier", "identifier"); ("publisher", "publisher"); ("date", "date");
   ("rights", "rights")].

Definition with_all_metadata (a : Py.dict string (list string))
    (m : Model.EpubMetadata) : Model.EpubMetadata :=
  {| Model.title := Model.title m; Model.creator := Model.creator m;
     Model.language := Model.language m; Model.identifier := Model.identifier m;
     Model.publisher := Model.publisher m; Model.date := Model.date m;
     Model.rights := Model.rights m; Model.all_metadata := a |}.

(** [setattr(metadata, field, v)] for the declared fields. *)
Definition setattr (m : Model.EpubMetadata) (field : string) (v : option string)
    : Model.EpubMetadata :=
  let pick name old := if String.eqb field name then v else old in
  {| Model.title := pick "title" (Model.title m);
     Model.creator := pick "creator" (Model.creator m);
     Model.language := pick "language" (Model.language m);
     Model.identifier := pick "identifier" (Model.identifier m);
     Model.publisher := pick "publisher" (Model.publisher m);
     Model.date := pick "date" (Model.date m);
     Model.rights := pick "rights" (Model.rights m);
     Model.all_metadata := Model.all_metadata m |}.

(** [getattr(metadata, field)] for the declared fields. *)
Definition getattr (m : Model.EpubMetadata) (field : string) : option string :=
  if String.eqb field "title" then Model.title m
  else if String.eqb field "creator" then Model.creator m
  else if String.eqb field "language" then Model.language m
  else if String.eqb field "identifier" then Model.identifier m
  else if String.eqb field "publisher" then Model.publisher m
  else if String.eqb field "date" then Model.date m
  else if String.eqb field "rights" then Model.rights m
  else None.

(** The body of the loop of [_parse_metadata]. *)
Definition metadata_step (metadata : Model.EpubMetadata) (item : Xml.element)
    : Model.EpubMetadata :=
  let tag_name := Xml.localname (Xml.tag item) in
  let metadata :=
    match Py.dget metadata_mapping tag_name with
    | Some field => setattr metadata field (Xml.text item)
    | None => metadata
    end in
  if Py.truthy (Xml.text item) then
    let all := Model.all_metadata metadata in
    let all := if Py.dmem all tag_name then all else Py.dset all tag_name [] in
    with_all_metadata
      (Py.dset all tag_name (default [] (Py.dget all tag_name) ++ [default "" (Xml.text item)]))
      metadata
  else metadata.

Definition _parse_metadata (metadata_element : Xml.element) : Model.EpubMetadata :=
  fold_left metadata_step (Xml.children metadata_element) empty_metadata.

Definition _parse_manifest (manifest_element : Xml.element)
    : Py.dict (option string) Model.ManifestItem :=
  fold_left
    (fun manifest item =>
       let manifest_item :=
         {| Model.id := Xml.get item "id";
            Model.href := Xml.get item "href";
            Model.media_type := Xml.get item "media-type";
            Model.properties := Xml.get item "properties" |} in
       Py.dset manifest (Model.id manifest_item) manifest_item)
    (Xml.findall manifest_element (opf_ns +:+ "item")) [].

Definition _parse_spine (spine_element : Xml.element) : list Model.SpineItem :=
  map (fun itemref =>
         {| Model.idref := Xml.get itemref "idref";
            Model.linear := String.eqb (default "yes" (Xml.get itemref "linear")) "yes" |})
      (Xml.findall spine_element (opf_ns +:+ "itemref")).

Definition path_str (o : option PathLib.path) : string :=
  match o with
  | Some p => PathLib.as_posix p
  | None => "None"
  end.

Definition _parse_opf (self : Loader) : result Model.EpubBook :=
  match epub self, opf_path self with
  | Some ar, Some opf =>
      if String.eqb opf "" then Raise (EpubLoaderError "EPUB not loaded or OPF path not found.")
      else
        opf_content ← Zip.read ar opf;
        match Xml.fromstring opf_content with
        | None => Raise (InvalidEpubFileError ("OPF file at " +:+ opf +:+ " is not well-formed XML."))
        | Some tree =>
            match Xml.find tree (opf_ns +:+ "metadata"),
                  Xml.find tree (opf_ns +:+ "manifest"),
                  Xml.find tree (opf_ns +:+ "spine") with
            | Some metadata_element, Some manifest_element, Some spine_element =>
                Ok {| Model.filepath := file_path self;
                      Model.opf_dir := path_str (opf_dir self);
                      Model.metadata := _parse_metadata metadata_element;
                      Model.manifest := _parse_manifest manifest_element;
                      Model.spine := _parse_spine spine_element;
                      Model.toc := [];
                      Model.is_modified := false;
                      Model.content_manager :=
                        {| Model._content_cache := []; Model._zipfile := None |} |}
            | _, _, _ =>
                Raise (InvalidEpubFileError
                  "OPF file is missing one or more required elements: metadata, manifest, spine.")
            end
        end
  | _, _ => Raise (EpubLoaderError "EPUB not loaded or OPF path not found.")
  end.

(** The check of the [mimetype] member's content. *)
Definition check_mimetype_content (ar : Zip.archive) : result unit :=
  match Zip.read ar "mimetype" with
  | Raise (KeyError _) =>
      Raise (InvalidEpubFileError "Required 'mimetype' file not found in the EPUB archive.")
  | Raise e => Raise e
  | Ok raw =>
      match Py.decode_ascii raw with
      | None => Raise (InvalidEpubFileError "Mimetype file is not ASCII encoded.")
      | Some decoded =>
          let mimetype_content := Py.strip decoded in
          if negb (String.eqb mimetype_content "application/epub+zip")
          then Raise (InvalidEpubFileError
                 "Mimetype file has incorrect content: must be 'application/epub+zip'.")
          else Ok tt
      end
  end.

Definition _validate_epub (self : Loader) : result unit :=
  match epub self with
  | None => Raise (EpubLoaderError "EPUB file is not loaded.")
  | Some ar =>
      check_mimetype_content ar;;
      let file_list := Zip.infolist ar in
      match file_list with
      | [] => Raise (InvalidEpubFileError "'mimetype' must be the first file in the EPUB archive.")
      | first :: _ =>
          if negb (String.eqb (Zip.filename first) "mimetype")
          then Raise (InvalidEpubFileError "'mimetype' must be the first file in the EPUB archive.")
          else if negb (Zip.compress_type first =? Zip.ZIP_STORED)%Z
          then Raise (InvalidEpubFileError "'mimetype' file must not be compressed.")
          else
            match Zip.getinfo ar "META-INF/container.xml" with
            | None => Raise (InvalidEpubFileError "Required 'META-INF/container.xml' file not found.")
            | Some _ => Ok tt
            end
      end
  end.

(** The loader once [load] has opened the archive. *)
Definition opened (path : string) (ar : Zip.archive) : Loader :=
  {| file_path := path; epub := Some ar; opf_path := None; opf_dir := None |}.

Definition load (path : string) (d : FS) : result Model.EpubBook :=
  match files d !! path with
  | None => Raise (FileNotFoundError ("EPUB file not found at: " +:+ path))
  | Some (RawFile _) =>
      Raise (InvalidEpubFileError ("File at " +:+ path +:+ " is not a valid ZIP file."))
  | Some (ZipFile ar) =>
      let self := opened path ar in
      _validate_epub self;;
      opf ← _get_opf_path self;
      let self := {| file_path := path; epub := Some ar; opf_path := Some opf;
                     opf_dir := Some (PathLib.parent (PathLib.Path opf)) |} in
      _parse_opf self
  end.

End WithParser.
End EpubLoader.

(* ================================================================== *)
(** ** Reference instances, specification-side notions and fixtures *)
(* ================================================================== *)

Definition reference_markup : Soup.Markup :=
  {| Soup.parse := Soup.ref_parse; Soup.prettify := Soup.ref_prettify |}.

(** A parser that accepts nothing: enough to run the checks [load] makes
    before it reads any XML. *)
Definition rejecting_parser : Xml.Parser := {| Xml.fromstring := fun _ => None |}.

Module Spec.

(** Removing ['..'] segments from a parsed path, as [os.path.normpath]
    does: each one cancels the segment before it. *)
Fixpoint collapse (done : list string) (todo : list string) : list string :=
  match todo with
  | [] => rev done
  | seg :: todo' =>
      if String.eqb seg ".." then
        match done with
        | prev :: done' =>
            if String.eqb prev ".." then collapse (seg :: done) todo'
            else collapse done' todo'
        | [] => collapse [seg] todo'
        end
      else collapse (seg :: done) todo'
  end.

Definition normpath (s : string) : string :=
  let p := PathLib.Path s in
  PathLib.as_posix {| PathLib.root := PathLib.root p;
                      PathLib.parts := collapse [] (PathLib.parts p) |}.

(** Calls on the content cache, and the hrefs a sequence of calls passed
    to [update_content]. *)
Inductive cache_call :=
| GetContent (href : string)
| UpdateContent (href new_content : string).

Definition run_call (c : cache_call) : M unit :=
  match c with
  | GetContent h => ContentManager.get_content h;; mret tt
  | UpdateContent h b => ContentManager.update_content h b
  end.

Definition run_calls (cs : list cache_call) : M unit := for_each cs run_call.

Definition updated_hrefs (cs : list cache_call) : list string :=
  flat_map (fun c => match c with UpdateContent h _ => [h] | GetContent _ => [] end) cs.

(** What a later reader of [href] gets. *)
Definition view (w : World) (href : string) : result string :=
  fst (ContentManager.get_content href w).

(** Nothing a reader or [save] can tell apart was changed: the disk, the
    modified flag and the content of every href. *)
Definition same_content (w w' : World) : Prop :=
  disk w' = disk w /\
  Model.is_modified (book w') = Model.is_modified (book w) /\
  forall href, view w' href = view w href.




(** [replace_all] once per rule, in order, keeping each count. *)
Fixpoint replace_each {MK : Soup.Markup} {RE : Re.Engine}
    (operations : list (string * string)) (case_sensitive whole_word regex : bool)
    : M (list nat) :=
  match operations with
  | [] => mret []
  | (find, replace) :: rest =>
      n ← ReplaceEngine.replace_all find replace case_sensitive whole_word regex;
      ns ← replace_each rest case_sensitive whole_word regex;
      mret (n :: ns)
  end.

Definition sum (ns : list nat) : nat := fold_right Nat.add 0 ns.

(** [w1] differs from [w] at most in the file at [path]. *)
Definition only_file_changed (path : string) (w w1 : World) : Prop :=
  book w1 = book w
  /\ forall p, p <> path -> files (disk w1) !! p = files (disk w) !! p.

(** [c] changes at most the file at [path], however it ends. *)
Definition confined {A} (path : string) (c : M A) : Prop :=
  forall w r w1, c w = (r, w1) -> only_file_changed path w w1.

(** A computation that, run on the book [b], has added the members [ms]
    at the end of the archive at [path] when it returns, and has left the
    book alone. *)
Definition appends (path : string) (b : Model.EpubBook) (ms : list Zip.member)
    (c : M unit) : Prop :=
  forall (w w1 : World) (ar0 : Zip.archive),
    book w = b ->
    c w = (Ok tt, w1) ->
    files (disk w) !! path = Some (ZipFile ar0) ->
    files (disk w1) !! path = Some (ZipFile (ar0 ++ ms)) /\ book w1 = b.

(** The archive a successful [save] leaves: the [mimetype] member forced
    to stored, the members no cached href is a suffix of, and one member
    per cache entry. *)
Definition kept_item (original_zip : Zip.archive) (modified_files : list string)
    (item : Zip.ZipInfo) : list Zip.member :=
  if String.eqb (Zip.filename item) "mimetype" then []
  else if EpubSaver.matches_modified modified_files (Zip.filename item) then []
  else match Zip.getinfo original_zip (Zip.filename item) with
       | Some m => [Zip.with_info item (snd m) None]
       | None => []
       end.

Definition kept (original_zip : Zip.archive) (modified_files : list string) : Zip.archive :=
  flat_map (kept_item original_zip modified_files) (Zip.infolist original_zip).

Definition saved_archive (original_zip : Zip.archive) (c : Py.dict string string)
    : option Zip.archive :=
  m ← Zip.getinfo original_zip "mimetype";
  Some ([Zip.with_info (fst m) (snd m) (Some Zip.ZIP_STORED)]
          ++ kept original_zip (Py.keys c)
          ++ map (EpubSaver.modified_member original_zip) c).


(** The local tag names [_parse_metadata] has a field for. *)
Definition recognized (name : string) : Prop :=
  In name ["title"; "creator"; "language"; "identifier"; "publisher"; "date"; "rights"].

(** The children of a metadata element with local tag name [name]. *)
Definition named (name : string) (items : list Xml.element) : list Xml.element :=
  filter (fun item => Xml.localname (Xml.tag item) = name) items.

(** The text of the last of them. *)
Definition last_text (name : string) (items : list Xml.element) : option string :=
  item ← last (named name items); Xml.text item.

(** Their non-empty texts, in document order. *)
Definition nonempty_texts (name : string) (items : list Xml.element) : list string :=
  flat_map (fun item => if Py.truthy (Xml.text item) then [default "" (Xml.text item)] else [])
           (named name items).

End Spec.

(** Notions for the properties of the code beyond the documented ones. *)
Module Laws.

(** The exceptions the engines take as "this item has no content". *)
Definition missing (e : exn) : Prop :=
  match e with
  | FileNotFoundError _ | KeyError _ => True
  | _ => False
  end.

(** A string the loop of [_replace_in_file] passes over. *)
Definition skipped (node : Soup.NavigableString) : bool :=
  bool_decide (Soup.parent_name node ∈ ["style"; "script"]).

(** The text the loop of [_replace_in_file] leaves in the place of
    [node]. *)
Definition new_text {RE : Re.Engine} (search_pattern : Re.pattern) (replace : string)
    (node : Soup.NavigableString) : string :=
  if skipped node then Soup.text node
  else if (0 <? snd (Re.subn search_pattern replace (Soup.text node)))%nat
       then fst (Re.subn search_pattern replace (Soup.text node))
       else Soup.text node.

(** The substitutions the loop counts for [node]. *)
Definition node_count {RE : Re.Engine} (search_pattern : Re.pattern) (replace : string)
    (node : Soup.NavigableString) : nat :=
  if skipped node then 0 else snd (Re.subn search_pattern replace (Soup.text node)).

(** The manifest item [_parse_manifest] builds from an [item] element. *)
Definition manifest_item (item : Xml.element) : Model.ManifestItem :=
  {| Model.id := Xml.get item "id";
     Model.href := Xml.get item "href";
     Model.media_type := Xml.get item "media-type";
     Model.properties := Xml.get item "properties" |}.

(** The [item] children of a manifest element whose id is [key]. *)
Definition items_with_id (key : option string) (manifest_element : Xml.element)
    : list Xml.element :=
  filter (fun item => Xml.get item "id" = key)
         (Xml.findall manifest_element (EpubLoader.opf_ns +:+ "item")).

(** The coordinate [r] points into the document the cache of [w] holds
    for its href: node [node_index] of that document exists and
    [match_text] is its slice [match_start:match_end]. *)
Definition located {MK : Soup.Markup} (w : World) (r : Model.SearchResult) : Prop :=
  exists (content : string) (i : nat) (node : Soup.NavigableString),
    Py.dget (cache w) (Model.item_href r) = Some content
    /\ Soup.find_all_strings (Soup.parse content) !! i = Some node
    /\ Model.node_index r = Z.of_nat i
    /\ Py.slice (Soup.text node) (Model.match_start r) (Model.match_end r)
       = Model.match_text r.


(** What a reader gets for [href] from the archive [ar] of a package in
    [opf_dir]. *)
Definition read_from (ar : Zip.archive) (opf_dir href : string) : result string :=
  match Zip.getinfo ar (ContentManager.full_path opf_dir href) with
  | Some m => Ok (snd m)
  | None =>
      Raise (FileNotFoundError
               ("Could not find '" +:+ ContentManager.full_path opf_dir href
                +:+ "' in the EPUB archive."))
  end.

End Laws.

Module Fixture.

Definition stored (name data : string) : Zip.member :=
  ({| Zip.filename := name; Zip.compress_type := Zip.ZIP_STORED |}, data).

Definition deflated (name data : string) : Zip.member :=
  ({| Zip.filename := name; Zip.compress_type := Zip.ZIP_DEFLATED |}, data).

Definition mimetype : Zip.member := stored "mimetype" "application/epub+zip".

Definition container : Zip.member :=
  deflated "META-INF/container.xml"
    "<container><rootfiles><rootfile full-path='OEBPS/content.opf'/></rootfiles></container>".

Definition opf : Zip.member :=
  deflated "OEBPS/content.opf" "<package><metadata/><manifest/><spine/></package>".

Definition xhtml (item_id item_href : string) : Model.ManifestItem :=
  {| Model.id := Some item_id; Model.href := Some item_href;
     Model.media_type := Some "application/xhtml+xml"; Model.properties := None |}.

Definition epub_path : string := "book.epub".

(** A disk that holds [ar] at [epub_path] and nothing else. *)
Definition on_disk (ar : Zip.archive) : FS :=
  {| files := {[ epub_path := ZipFile ar ]}; quota := None |}.

(** A freshly loaded book over [ar], stored at [epub_path]. *)
Definition world (ar : Zip.archive) (q : option nat) (items : list Model.ManifestItem) : World :=
  {| disk := {| files := {[ epub_path := ZipFile ar ]}; quota := q |};
     book := {| Model.filepath := epub_path;
                Model.opf_dir := "OEBPS";
                Model.metadata := EpubLoader.empty_metadata;
                Model.manifest := map (fun i => (Model.id i, i)) items;
                Model.spine := [];
                Model.toc := [];
                Model.is_modified := false;
                Model.content_manager :=
                  {| Model._content_cache := []; Model._zipfile := None |} |} |}.

(** The document of the repository's replace tests. *)
Definition page1_src : string :=
  "<html><body><p>This is a test to test replacement.</p></body></html>".

Definition page1 : Model.ManifestItem := xhtml "item1" "content/page1.xhtml".

Definition test_archive : Zip.archive :=
  [mimetype; container; opf; deflated "OEBPS/content/page1.xhtml" page1_src].

Definition test_world : World := world test_archive None [page1].

(** The first ["test"] of the document, as [search] reports it. *)
Definition first_test : Model.SearchResult :=
  {| Model.file_path := "content/page1.xhtml";
     Model.item_href := "content/page1.xhtml";
     Model.node_index := 0;
     Model.match_start := 10;
     Model.match_end := 14;
     Model.match_text := "test";
     Model.context := "This is a test to test replacement." |}.

(** The empty match a starred pattern has at the start of the text. *)
Definition empty_match : Model.SearchResult :=
  {| Model.file_path := "content/page1.xhtml";
     Model.item_href := "content/page1.xhtml";
     Model.node_index := 0;
     Model.match_start := 0;
     Model.match_end := 0;
     Model.match_text := "";
     Model.context := "This is a test to test replacement." |}.

(** The test book after an edit, on a device that takes two more writes. *)
Definition edited_world (q : option nat) : World :=
  snd (ContentManager.update_content "content/page1.xhtml" "<html>new</html>"
         (world test_archive q [page1])).

(** The test book after a replace-all: its page was read, so the archive
    handle is open, and edited. *)
Definition replaced_world : World :=
  snd (@ReplaceEngine.replace_all reference_markup Re.reference
         "test" "sample" false true false test_world).


(** The valid EPUB of the repository's loader tests, and a parser that
    knows its two XML members. *)
Definition container_src : string :=
  "<container version='1.0' xmlns='urn:oasis:names:tc:opendocument:xmlns:container'><rootfiles><rootfile full-path='OEBPS/content.opf' media-type='application/oebps-package+xml'/></rootfiles></container>".

Definition opf_src : string :=
  "<package xmlns='http://www.idpf.org/2007/opf' version='2.0'><metadata xmlns:dc='http://purl.org/dc/elements/1.1/'><dc:title>Test Title</dc:title><dc:creator>Test Author</dc:creator><dc:language>en</dc:language></metadata><manifest><item id='text' href='text.xhtml' media-type='application/xhtml+xml'/></manifest><spine><itemref idref='text'/></spine></package>".

Definition text_src : string := "<html><body><p>Hello World</p></body></html>".

Definition cns (name : string) : string := EpubLoader.container_ns +:+ name.
Definition ons (name : string) : string := EpubLoader.opf_ns +:+ name.

Definition container_tree : Xml.element :=
  Xml.Element (cns "container") [("version", "1.0")] None
    [Xml.Element (cns "rootfiles") [] None
       [Xml.Element (cns "rootfile")
          [("full-path", "OEBPS/content.opf");
           ("media-type", "application/oebps-package+xml")] None []]].

Definition opf_tree : Xml.element :=
  Xml.Element (ons "package") [("version", "2.0")] None
    [Xml.Element (ons "metadata") [] None
       [Xml.Element "{http://purl.org/dc/elements/1.1/}title" [] (Some "Test Title") [];
        Xml.Element "{http://purl.org/dc/elements/1.1/}creator" [] (Some "Test Author") [];
        Xml.Element "{http://purl.org/dc/elements/1.1/}language" [] (Some "en") []];
     Xml.Element (ons "manifest") [] None
       [Xml.Element (ons "item")
          [("id", "text"); ("href", "text.xhtml"); ("media-type", "application/xhtml+xml")]
          None []];
     Xml.Element (ons "spine") [] None
       [Xml.Element (ons "itemref") [("idref", "text")] None []]].

Definition table_parser : Xml.Parser :=
  {| Xml.fromstring := fun s =>
       if String.eqb s container_src then Some container_tree
       else if String.eqb s opf_src then Some opf_tree
       else None |}.

Definition valid_archive : Zip.archive :=
  [mimetype;
   deflated "META-INF/container.xml" container_src;
   deflated "OEBPS/content.opf" opf_src;
   deflated "OEBPS/text.xhtml" text_src].


(** A manifest with a repeated id. *)
Definition repeated_manifest : Xml.element :=
  Xml.Element (ons "manifest") [] None
    [Xml.Element (ons "item") [("id", "a"); ("href", "one.xhtml")] None [];
     Xml.Element (ons "item") [("id", "b"); ("href", "two.xhtml")] None [];
     Xml.Element (ons "item") [("id", "a"); ("href", "three.xhtml")] None []].

(** A book with an item that has no media type. *)
Definition untyped_world : World :=
  world test_archive None
        [{| Model.id := Some "item1"; Model.href := Some "content/page1.xhtml";
            Model.media_type := None; Model.properties := None |}].

(** A page with a style sheet. *)
Definition styled_src : string :=
  "<html><head><style>p { color: red }</style></head><body><p>no colour here</p></body></html>".

Definition styled_world : World :=
  world [mimetype; container; opf; deflated "OEBPS/content/page1.xhtml" styled_src]
        None [page1].

(** Two pages, the second under a name that needs a URL escape. *)
Definition page2 : Model.ManifestItem := xhtml "item2" "content/page%202.xhtml".

Definition page2_src : string := "<html><body><p>Second page.</p></body></html>".

Definition two_page_archive : Zip.archive :=
  [mimetype; container; opf;
   deflated "OEBPS/content/page1.xhtml" page1_src;
   deflated "OEBPS/content/page 2.xhtml" page2_src].

Definition two_page_world : World := world two_page_archive None [page1; page2].

(** Two members, one name a suffix of the other. *)
Definition text_item : Model.ManifestItem := xhtml "text" "text.xhtml".

Definition suffix_archive : Zip.archive :=
  [mimetype; container; opf;
   deflated "OEBPS/text.xhtml" "<html><body><p>Hello World</p></body></html>";
   deflated "OEBPS/old_text.xhtml" "<html><body><p>An earlier draft</p></body></html>"].

Definition suffix_world : World := world suffix_archive None [text_item].

(** The same book once ["text.xhtml"], and nothing else, was edited. *)
Definition suffix_edited : World :=
  snd (ContentManager.update_content "text.xhtml" "<html>new</html>" suffix_world).

(** A page outside the package directory, referred to through ['..']. *)
Definition parent_archive : Zip.archive :=
  [mimetype; container; opf; deflated "text.xhtml" "<html><body><p>Hello World</p></body></html>"].

Definition parent_world : World :=
  world parent_archive None [xhtml "text" "../text.xhtml"].

Definition dc (name : string) (text : option string) : Xml.element :=
  Xml.Element ("{http://purl.org/dc/elements/1.1/}" +:+ name) [] text [].

(** A metadata element with two creators, the second without text. *)
Definition two_creators : Xml.element :=
  Xml.Element "{http://www.idpf.org/2007/opf}metadata" [] None
    [dc "title" (Some "Test Title"); dc "creator" (Some "First Author");
     dc "language" (Some "en"); dc "creator" None].

End Fixture.

(* ================================================================== *)
(** * Properties *)
(* ================================================================== *)

(** ** Python built-ins *)

Example getitem_last : Py.getitem [10; 20; 30] (-1) = Some 30.
Proof. reflexivity. Qed.

Example getitem_out_of_range :
  Py.getitem [10; 20; 30] 3 = None /\ Py.getitem [10; 20; 30] (-4) = None.
Proof. split; reflexivity. Qed.

Example slice_clamps :
  Py.slice "hello" 1 99 = "ello" /\ Py.slice "hello" (-3) (-1) = "ll" /\
  Py.slice "hello" 4 2 = "".
Proof. repeat split; reflexivity. Qed.

Example endswith_examples :
  Py.endswith "OEBPS/text.xhtml" "text.xhtml" = true /\
  Py.endswith "OEBPS/text.xhtml" "OEBPS/text.xhtm" = false /\
  Py.endswith "abc" "" = true.
Proof. repeat split; reflexivity. Qed.

Example unquote_example : PathLib.unquote "a%20b%2Fc%zz%4" = "a b/c%zz%4".
Proof. reflexivity. Qed.

Example join_keeps_dotdot :
  PathLib.as_posix (PathLib.join (PathLib.Path "OEBPS") "../images/./a.png")
  = "OEBPS/../images/a.png".
Proof. reflexivity. Qed.

Lemma str_chars (s : string) : Py.str (Py.chars s) = s.
Proof. apply string_of_list_ascii_of_string. Qed.

Lemma chars_str (l : list ascii) : Py.chars (Py.str l) = l.
Proof. apply list_ascii_of_string_of_list_ascii. Qed.

Lemma len_chars (s : string) : Py.len s = length (Py.chars s).
Proof. unfold Py.len, Py.chars. induction s; simpl; congruence. Qed.


Lemma norm_index_nonneg (n : nat) (i : Z) :
  (0 <= i)%Z ->
  Py.norm_index n i = if (i <? Z.of_nat n)%Z then Some (Z.to_nat i) else None.
Proof. intros H. unfold Py.norm_index. destruct (0 <=? i)%Z eqn:E; [done | lia]. Qed.

Section DictFacts.
Context {K V : Type} `{EqDecision K}.
Implicit Types (d : Py.dict K V) (k : K) (v : V).

Lemma dget_dset d k v k' :
  Py.dget (Py.dset d k v) k' = if decide (k = k') then Some v else Py.dget d k'.
Proof.
  induction d as [| [k0 v0] d IH]; simpl.
  - destruct (decide (k = k')); reflexivity.
  - destruct (decide (k0 = k)) as [-> | Hne]; simpl.
    + destruct (decide (k = k')); reflexivity.
    + rewrite IH. destruct (decide (k0 = k')) as [-> | ?]; [| reflexivity].
      destruct (decide (k = k')); congruence.
Qed.

Lemma dget_dset_eq d k v : Py.dget (Py.dset d k v) k = Some v.
Proof. rewrite dget_dset. destruct (decide (k = k)); congruence. Qed.

Lemma dget_dset_ne d k v k' : k <> k' -> Py.dget (Py.dset d k v) k' = Py.dget d k'.
Proof. intros. rewrite dget_dset. destruct (decide (k = k')); congruence. Qed.

Lemma dmem_spec d k : Py.dmem d k = true <-> is_Some (Py.dget d k).
Proof. unfold Py.dmem. apply bool_decide_eq_true. Qed.
End DictFacts.

(** ** The loader: metadata *)

Section Metadata.
Import EpubLoader.

Lemma mapping_recognized (name : string) :
  Spec.recognized name -> Py.dget metadata_mapping name = Some name.
Proof.
  unfold Spec.recognized. simpl. intros H.
  repeat (destruct H as [<- | H]; [reflexivity |]). contradiction.
Qed.

Lemma mapping_identity (name field : string) :
  Py.dget metadata_mapping name = Some field -> field = name /\ Spec.recognized name.
Proof.
  unfold metadata_mapping, Spec.recognized. simpl.
  repeat (case_decide; [subst; intros [= <-]; split; [reflexivity | simpl; tauto] |]).
  discriminate.
Qed.

Ltac eqb_cases :=
  repeat match goal with
    | |- context [String.eqb ?a ?b] =>
        let E := fresh "E" in
        destruct (String.eqb a b) eqn:E;
        [apply String.eqb_eq in E | apply String.eqb_neq in E]; subst; try congruence
    end.

Lemma getattr_setattr (m : Model.EpubMetadata) (field name : string) (v : option string) :
  Spec.recognized field ->
  getattr (setattr m field v) name = if String.eqb name field then v else getattr m name.
Proof.
  unfold Spec.recognized. simpl. intros H.
  repeat (destruct H as [<- | H];
          [unfold getattr, setattr; simpl; eqb_cases; reflexivity |]).
  contradiction.
Qed.

Lemma getattr_with_all a m name : getattr (with_all_metadata a m) name = getattr m name.
Proof. reflexivity. Qed.

(** One turn of the loop, on a declared field. *)
Lemma step_field (m : Model.EpubMetadata) (item : Xml.element) (name : string) :
  Spec.recognized name ->
  getattr (metadata_step m item) name
  = if String.eqb (Xml.localname (Xml.tag item)) name then Xml.text item else getattr m name.
Proof.
  intros Hrec. unfold metadata_step.
  set (t := Xml.localname (Xml.tag item)).
  assert (Hset : getattr (match Py.dget metadata_mapping t with
                          | Some field => setattr m field (Xml.text item)
                          | None => m
                          end) name
                 = if String.eqb t name then Xml.text item else getattr m name).
  { destruct (Py.dget metadata_mapping t) as [field |] eqn:Hmap.
    - apply mapping_identity in Hmap as [-> Ht].
      rewrite getattr_setattr by exact Ht.
      rewrite (String.eqb_sym name t). reflexivity.
    - destruct (String.eqb t name) eqn:E; [| reflexivity].
      apply String.eqb_eq in E. subst name.
      rewrite (mapping_recognized _ Hrec) in Hmap. discriminate. }
  destruct (Py.truthy (Xml.text item)); [rewrite getattr_with_all |]; exact Hset.
Qed.

Lemma all_metadata_setattr_opt (m : Model.EpubMetadata) (o : option string) (v : option string) :
  Model.all_metadata (match o with Some field => setattr m field v | None => m end)
  = Model.all_metadata m.
Proof. destruct o; reflexivity. Qed.

(** One turn of the loop, on the catch-all mapping. *)
Lemma step_all (m : Model.EpubMetadata) (item : Xml.element) (name : string) :
  Py.dget (Model.all_metadata (metadata_step m item)) name
  = if Py.truthy (Xml.text item) && String.eqb (Xml.localname (Xml.tag item)) name
    then Some (default [] (Py.dget (Model.all_metadata m) name) ++ [default "" (Xml.text item)])
    else Py.dget (Model.all_metadata m) name.
Proof.
  unfold metadata_step.
  set (t := Xml.localname (Xml.tag item)).
  destruct (Py.truthy (Xml.text item)); simpl.
  - rewrite all_metadata_setattr_opt.
    set (all := Model.all_metadata m).
    rewrite dget_dset.
    destruct (String.eqb t name) eqn:E.
    + apply String.eqb_eq in E. subst name.
      destruct (decide (t = t)); [| congruence].
      destruct (Py.dmem all t) eqn:Hmem; [reflexivity |].
      rewrite dget_dset_eq.
      assert (Py.dget all t = None) as ->; [| reflexivity].
      destruct (Py.dget all t) eqn:Hg; [| reflexivity].
      assert (Py.dmem all t = true) by (apply dmem_spec; rewrite Hg; eauto).
      congruence.
    + apply String.eqb_neq in E.
      destruct (decide (t = name)); [congruence |].
      destruct (Py.dmem all t); [reflexivity |].
      apply dget_dset_ne. exact E.
  - rewrite all_metadata_setattr_opt. reflexivity.
Qed.

Lemma named_snoc (name : string) (items : list Xml.element) (x : Xml.element) :
  Spec.named name (items ++ [x])
  = Spec.named name items
      ++ (if String.eqb (Xml.localname (Xml.tag x)) name then [x] else []).
Proof.
  unfold Spec.named. rewrite filter_app. f_equal. simpl.
  rewrite filter_cons, filter_nil.
  destruct (String.eqb _ name) eqn:E.
  - apply String.eqb_eq in E. case_decide; congruence.
  - apply String.eqb_neq in E. case_decide; congruence.
Qed.

(** C10.  After [_parse_metadata], each declared single-valued field
    holds the text of the last child with that local tag name, be it
    empty or absent, and the catch-all mapping holds, under each local
    tag name, the non-empty texts of the children with that name in
    document order (and no key for a name without such texts). *)
Theorem parse_metadata_last_wins (metadata_element : Xml.element) (name : string) :
  Spec.recognized name ->
  getattr (_parse_metadata metadata_element) name
  = Spec.last_text name (Xml.children metadata_element)
  /\ forall tag_name : string,
      Py.dget (Model.all_metadata (_parse_metadata metadata_element)) tag_name
      = match Spec.nonempty_texts tag_name (Xml.children metadata_element) with
        | [] => None
        | texts => Some texts
        end.
Proof.
  intros Hrec. unfold _parse_metadata.
  induction (Xml.children metadata_element) as [| x items [IHf IHa]] using rev_ind.
  - split; [| reflexivity].
    simpl. unfold Spec.recognized in Hrec. simpl in Hrec.
    repeat (destruct Hrec as [<- | Hrec]; [reflexivity |]). contradiction.
  - rewrite fold_left_app. simpl. split.
    + rewrite step_field by exact Hrec. rewrite IHf.
      unfold Spec.last_text. rewrite named_snoc.
      destruct (String.eqb _ name).
      * rewrite last_snoc. reflexivity.
      * rewrite app_nil_r. reflexivity.
    + intros tag_name. rewrite step_all, IHa.
      unfold Spec.nonempty_texts. rewrite named_snoc, flat_map_app.
      destruct (String.eqb _ tag_name); simpl.
      * destruct (Py.truthy (Xml.text x)); simpl.
        -- destruct (flat_map _ (Spec.named tag_name items)) eqn:Hf; reflexivity.
        -- rewrite app_nil_r. reflexivity.
      * rewrite andb_false_r, app_nil_r. reflexivity.
Qed.

Lemma parse_metadata_last_wins_witness :
  getattr (_parse_metadata Fixture.two_creators) "creator" = None
  /\ Py.dget (Model.all_metadata (_parse_metadata Fixture.two_creators)) "creator"
     = Some ["First Author"].
Proof.
  destruct (parse_metadata_last_wins Fixture.two_creators "creator") as [Hf Ha].
  - right; left; reflexivity.
  - split.
    + rewrite Hf. reflexivity.
    + rewrite Ha. reflexivity.
Defined.

(** The metadata of a loaded book is what [_parse_metadata] makes of the
    package document's metadata element. *)
Lemma load_metadata {XP : Xml.Parser} (path : string) (d : FS) (b : Model.EpubBook) :
  load path d = Ok b ->
  exists (ar : Zip.archive) (opf : string) (opf_content : string) (tree md : Xml.element),
    files d !! path = Some (ZipFile ar)
    /\ Zip.read ar opf = Ok opf_content
    /\ Xml.fromstring opf_content = Some tree
    /\ Xml.find tree (opf_ns +:+ "metadata") = Some md
    /\ Model.metadata b = _parse_metadata md.
Proof.
  unfold load. destruct (files d !! path) as [[ar | raw] |] eqn:Hf; try discriminate.
  unfold mbind, result_bind.
  destruct (_validate_epub _); [| discriminate].
  destruct (_get_opf_path _) as [opf |]; [| discriminate].
  unfold _parse_opf. simpl.
  destruct (String.eqb opf ""); [discriminate |].
  unfold mbind, result_bind.
  destruct (Zip.read ar opf) as [opf_content |] eqn:Hr; [| discriminate].
  destruct (Xml.fromstring opf_content) as [tree |] eqn:Ht; [| discriminate].
  destruct (Xml.find tree _) as [md |] eqn:Hmd; [| discriminate].
  destruct (Xml.find tree (opf_ns +:+ "manifest")); [| discriminate].
  destruct (Xml.find tree (opf_ns +:+ "spine")); [| discriminate].
  intros [= <-]. exists ar, opf, opf_content, tree, md. auto.
Qed.

End Metadata.

(** ** The loader: container validation *)

Section Validation.
Context {XP : Xml.Parser}.
Import EpubLoader.

Lemma decode_ascii_same (raw decoded : string) :
  Py.decode_ascii raw = Some decoded -> decoded = raw.
Proof. unfold Py.decode_ascii. destruct (forallb _ _); congruence. Qed.


(** What an archive that passes [_validate_epub] looks like. *)
Lemma validate_ok (path : string) (ar : Zip.archive) :
  _validate_epub (opened path ar) = Ok tt ->
  exists (m first : Zip.member) (rest : Zip.archive),
    Zip.getinfo ar "mimetype" = Some m
    /\ Py.strip (snd m) = "application/epub+zip"
    /\ ar = first :: rest
    /\ Zip.filename (fst first) = "mimetype"
    /\ Zip.compress_type (fst first) = Zip.ZIP_STORED
    /\ is_Some (Zip.getinfo ar "META-INF/container.xml").
Proof.
  unfold _validate_epub, check_mimetype_content, Zip.read. simpl.
  unfold mbind, result_bind.
  destruct (Zip.getinfo ar "mimetype") as [m |]; [| discriminate].
  destruct (Py.decode_ascii (snd m)) as [decoded |] eqn:Hdec; [| discriminate].
  apply decode_ascii_same in Hdec. subst decoded.
  destruct (String.eqb (Py.strip (snd m)) _) eqn:Hcontent; [| discriminate]. simpl.
  apply String.eqb_eq in Hcontent.
  destruct ar as [| first rest]; [discriminate |]. simpl.
  destruct (String.eqb (Zip.filename (fst first)) _) eqn:Hname; [| discriminate]. simpl.
  apply String.eqb_eq in Hname.
  destruct (Zip.compress_type (fst first) =? Zip.ZIP_STORED)%Z eqn:Hct; [| discriminate]. simpl.
  apply Z.eqb_eq in Hct.
  destruct (match Zip.getinfo rest _ with Some _ => _ | None => _ end) eqn:Hc; [| discriminate].
  intros _. exists m, first, rest. repeat split; eauto.
Qed.



End Validation.

(** The five archives of the repository's loader tests. *)

Example load_no_mimetype :
  @EpubLoader.load rejecting_parser Fixture.epub_path (Fixture.on_disk [Fixture.container])
  = Raise (InvalidEpubFileError "Required 'mimetype' file not found in the EPUB archive.").
Proof. reflexivity. Qed.

Example load_mimetype_not_first :
  @EpubLoader.load rejecting_parser Fixture.epub_path
     (Fixture.on_disk [Fixture.container; Fixture.mimetype])
  = Raise (InvalidEpubFileError "'mimetype' must be the first file in the EPUB archive.").
Proof. reflexivity. Qed.

Example load_mimetype_compressed :
  @EpubLoader.load rejecting_parser Fixture.epub_path
     (Fixture.on_disk [Fixture.deflated "mimetype" "application/epub+zip"; Fixture.container])
  = Raise (InvalidEpubFileError "'mimetype' file must not be compressed.").
Proof. reflexivity. Qed.

Example load_mimetype_wrong_content :
  @EpubLoader.load rejecting_parser Fixture.epub_path
     (Fixture.on_disk [Fixture.stored "mimetype" "application/zip"; Fixture.container])
  = Raise (InvalidEpubFileError
             "Mimetype file has incorrect content: must be 'application/epub+zip'.").
Proof. reflexivity. Qed.

Example load_no_container :
  @EpubLoader.load rejecting_parser Fixture.epub_path (Fixture.on_disk [Fixture.mimetype])
  = Raise (InvalidEpubFileError "Required 'META-INF/container.xml' file not found.").
Proof. reflexivity. Qed.


(** ** The monad *)

Ltac unfold_monad :=
  unfold mbind, M_bind, mret, M_ret, raise, get_world, set_book, set_disk, try_except in *.

Lemma bind_ok {A B} (c : M A) (f : A -> M B) (w w' : World) (a : A) :
  c w = (Ok a, w') -> (c ≫= f) w = f a w'.
Proof. intros H. unfold mbind, M_bind. rewrite H. reflexivity. Qed.

Lemma bind_raise {A B} (c : M A) (f : A -> M B) (w w' : World) (e : exn) :
  c w = (Raise e, w') -> (c ≫= f) w = (Raise e, w').
Proof. intros H. unfold mbind, M_bind. rewrite H. reflexivity. Qed.

(** ** Batch replace *)

Section Batch.
Context {MK : Soup.Markup} {RE : Re.Engine}.
Import ReplaceEngine.

Lemma batch_loop_sum (operations : list (string * string))
    (case_sensitive whole_word regex : bool) (total : nat) (w : World) :
  batch_loop operations case_sensitive whole_word regex total w
  = (ns ← Spec.replace_each operations case_sensitive whole_word regex;
     mret (total + Spec.sum ns)) w.
Proof.
  revert total w.
  induction operations as [| [find replace] rest IH]; intros total w; simpl.
  - unfold_monad. f_equal. f_equal. simpl. lia.
  - unfold mbind at 1 2 3. unfold M_bind at 1 2 3.
    destruct (replace_all find replace case_sensitive whole_word regex w) as [[n | e] w1];
      [| reflexivity].
    rewrite IH. unfold mbind, M_bind.
    destruct (Spec.replace_each rest case_sensitive whole_word regex w1) as [[ns | e] w2];
      [| reflexivity].
    unfold mret, M_ret. simpl. do 2 f_equal. lia.
Qed.

End Batch.

(** C9.  [batch_replace_all] is [replace_all] once per rule, in the order
    given, each rule running in the world the earlier ones left, and its
    result is the sum of their counts; on the document of the tests, the
    rules [("test", "sample")] and [("replacement", "substitution")]
    (whole words, case ignored) give 3 and leave a page that contains
    ["a sample to sample substitution"]. *)
Theorem batch_replace_all_sequential :
  (forall (MK : Soup.Markup) (RE : Re.Engine) (operations : list (string * string))
          (case_sensitive whole_word regex : bool) (w : World),
      ReplaceEngine.batch_replace_all operations case_sensitive whole_word regex w
      = (ns ← Spec.replace_each operations case_sensitive whole_word regex;
         mret (Spec.sum ns)) w)
  /\ (let run :=
        @ReplaceEngine.batch_replace_all reference_markup Re.reference
          [("test", "sample"); ("replacement", "substitution")] false true false
          Fixture.test_world in
      Py.contains "a test to test replacement" Fixture.page1_src = true
      /\ fst run = Ok 3
      /\ exists content,
           Py.dget (cache (snd run)) "content/page1.xhtml" = Some content
           /\ Py.contains "a sample to sample substitution" content = true).
Proof.
  split.
  - intros. unfold ReplaceEngine.batch_replace_all. apply batch_loop_sum.
  - vm_compute. repeat split. eexists. split; reflexivity.
Qed.

(** The first of the two rules alone, as in the repository's test. *)
Example replace_all_test_sample :
  let run :=
    @ReplaceEngine.replace_all reference_markup Re.reference
      "test" "sample" false true false Fixture.test_world in
  fst run = Ok 2
  /\ exists content,
       Py.dget (cache (snd run)) "content/page1.xhtml" = Some content
       /\ Py.contains "a sample to sample replacement" content = true
       /\ Py.contains "a test to test replacement" content = false.
Proof. vm_compute. split; [reflexivity |]. eexists. repeat split. Qed.

(** ** Search and the contents of [style] and [script] *)

(** C3.  On a page whose style sheet contains ["color"], [search] yields a
    result for it: the matched node is the string inside the [style]
    element.  [replace_all] skips that node and replaces nothing there. *)
Theorem search_reports_style_text :
  let t := fst (@SearchEngine.search reference_markup Re.reference
                  "color" true false false Fixture.styled_world) in
  raised t = None
  /\ exists (r : Model.SearchResult) (node : Soup.NavigableString),
       yielded t = [r]
       /\ Soup.find_all_strings (Soup.ref_parse Fixture.styled_src)
            !! Z.to_nat (Model.node_index r) = Some node
       /\ Soup.parent_name node = "style"
       /\ Model.context r = Soup.text node
       /\ Model.match_text r = "color"
  /\ fst (@ReplaceEngine.replace_all reference_markup Re.reference
            "color" "colour" true false false Fixture.styled_world) = Ok 0.
Proof.
  vm_compute. split; [reflexivity |].
  do 2 eexists. repeat split.
Qed.

(** ** The content cache and what [save] rewrites *)

(** C1.  A page that was only read through [get_content] is one of the
    keys [save] takes as modified.  Here the page read under
    ["content/page%202.xhtml"] was never passed to [update_content], and
    the saved archive gains a member of that name, written from the cache;
    and once ["content/page1.xhtml"] was read, [_write_unmodified_files]
    no longer copies its member. *)
Theorem save_rewrites_cached_reads :
  let calls := [Spec.GetContent "content/page%202.xhtml";
                Spec.UpdateContent "content/page1.xhtml" "<html>new</html>"] in
  let w := snd (Spec.run_calls calls Fixture.two_page_world) in
  let saved := EpubSaver.save true w in
  let read_only := snd (Spec.run_calls [Spec.GetContent "content/page1.xhtml"]
                          Fixture.two_page_world) in
  Spec.updated_hrefs calls = ["content/page1.xhtml"]
  /\ Py.keys (cache w) = ["content/page%202.xhtml"; "content/page1.xhtml"]
  /\ fst saved = Ok tt
  /\ map (fun m => Zip.filename (fst m))
         (EpubSaver.archive_at Fixture.epub_path (disk (snd saved)))
     = ["mimetype"; "META-INF/container.xml"; "OEBPS/content.opf";
        "OEBPS/content/page 2.xhtml"; "content/page%202.xhtml";
        "OEBPS/content/page1.xhtml"]
  /\ Spec.updated_hrefs [Spec.GetContent "content/page1.xhtml"] = []
  /\ EpubSaver.matches_modified (Py.keys (cache read_only)) "OEBPS/content/page1.xhtml" = true.
Proof. vm_compute. repeat split. Qed.

(** ** Resolving an href *)

(** C6.  [get_content] joins the decoded href to [opf_dir] and keeps the
    ['..'] segment: for the href ["../text.xhtml"] of a package in
    ["OEBPS"] it looks up ["OEBPS/../text.xhtml"] and raises
    [FileNotFoundError], although the archive has the member
    ["text.xhtml"] the normalized path names. *)
Theorem get_content_keeps_parent_segments :
  ContentManager.full_path "OEBPS" "../text.xhtml" = "OEBPS/../text.xhtml"
  /\ Spec.normpath "OEBPS/../text.xhtml" = "text.xhtml"
  /\ Zip.read Fixture.parent_archive "text.xhtml"
     = Ok "<html><body><p>Hello World</p></body></html>"
  /\ fst (ContentManager.get_content "../text.xhtml" Fixture.parent_world)
     = Raise (FileNotFoundError "Could not find 'OEBPS/../text.xhtml' in the EPUB archive.").
Proof. vm_compute. repeat split. Qed.

(** ** Strings of a document *)

Section SoupFacts.
Import Soup.

Lemma node_nested_ind (P : node -> Prop)
    (HText : forall s, P (Text s))
    (HTag : forall nm at_ kids, Forall P kids -> P (Tag nm at_ kids)) :
  forall n, P n.
Proof.
  fix IH 1. intros [s | nm at_ kids].
  - apply HText.
  - apply HTag. induction kids as [| k ks IHks]; constructor.
    + apply IH.
    + apply IHks.
Qed.

(** [refill] consumes one text per string of the tree and puts them where
    the strings were. *)
Lemma refill_strings (n : node) :
  forall (ss : list string) (p : string),
    length (strings_under p n) <= length ss ->
    map text (strings_under p (fst (refill n ss))) = take (length (strings_under p n)) ss
    /\ snd (refill n ss) = drop (length (strings_under p n)) ss.
Proof.
  induction n as [s | nm at_ kids IH] using node_nested_ind; intros ss p Hlen.
  - simpl in *. destruct ss as [| s' rest]; [simpl in Hlen; lia |].
    simpl. rewrite take_0, drop_0. split; reflexivity.
  - simpl in Hlen. simpl.
    set (go := fix go (ks : list node) (ss : list string) : list node * list string :=
                 match ks with
                 | [] => ([], ss)
                 | k :: ks' =>
                     let '(k', r) := refill k ss in
                     let '(ks'', r') := go ks' r in (k' :: ks'', r')
                 end).
    assert (Hgo : forall ss,
               length (flat_map (strings_under nm) kids) <= length ss ->
               map text (flat_map (strings_under nm) (fst (go kids ss)))
               = take (length (flat_map (strings_under nm) kids)) ss
               /\ snd (go kids ss) = drop (length (flat_map (strings_under nm) kids)) ss).
    { clear Hlen ss. induction IH as [| k ks Hk _ IHks]; intros ss Hlen.
      - simpl. rewrite take_0, drop_0. split; reflexivity.
      - simpl in Hlen. rewrite length_app in Hlen. simpl.
        destruct (Hk ss nm ltac:(lia)) as [Hk1 Hk2].
        destruct (refill k ss) as [k' r]. simpl in Hk1, Hk2.
        assert (Hr : length (flat_map (strings_under nm) ks) <= length r).
        { rewrite Hk2, length_drop. lia. }
        destruct (IHks r Hr) as [Hks1 Hks2].
        destruct (go ks r) as [ks'' r']. simpl in Hks1, Hks2. simpl.
        rewrite map_app, Hk1, Hks1, Hks2, Hk2, length_app.
        split.
        + apply take_take_drop.
        + rewrite drop_drop. reflexivity. }
    destruct (Hgo ss Hlen) as [H1 H2].
    destruct (go kids ss) as [kids' rest]. simpl in *. auto.
Qed.

(** [replace_with] changes the [i]-th string and no other. *)
Lemma replace_with_strings (soup : node) (i : nat) (new : string) :
  map text (find_all_strings (replace_with soup i new))
  = <[i := new]> (map text (find_all_strings soup)).
Proof.
  unfold replace_with, find_all_strings.
  destruct (refill_strings soup (<[i := new]> (map text (strings_under "" soup))) "")
    as [H _].
  - rewrite length_insert, length_map. lia.
  - rewrite H. apply take_ge. rewrite length_insert, length_map. lia.
Qed.

End SoupFacts.

(** ** The content cache *)

Lemma same_content_refl (w : World) : Spec.same_content w w.
Proof. repeat split. Qed.

Ltac destruct_world w :=
  let d := fresh "d" in
  let c := fresh "c" in
  let z := fresh "z" in
  destruct w as [d [fp od md mf sp tc im [c z]]].

(** A read through [get_content] memoizes and changes nothing a later
    reader sees: the disk, the modified flag and the content of every
    href stay what they were. *)
Lemma get_content_same_content (href : string) (w w1 : World) (r : result string) :
  ContentManager.get_content href w = (r, w1) -> Spec.same_content w w1.
Proof.
  destruct_world w.
  unfold ContentManager.get_content, ContentManager.zipfile, cache. unfold_monad. simpl.
  destruct (Py.dget c href) as [content |] eqn:Hc.
  { intros [= <- <-]. apply same_content_refl. }
  destruct z as [ar |]; simpl.
  - unfold Zip.read.
    destruct (Zip.getinfo ar _) as [m |] eqn:Hm; simpl; intros [= <- <-].
    + repeat split. intros h. unfold Spec.view, ContentManager.get_content,
        ContentManager.zipfile, cache. unfold_monad. simpl.
      rewrite dget_dset. destruct (decide (href = h)) as [<- | Hne].
      * rewrite Hc. simpl. unfold Zip.read. rewrite Hm. reflexivity.
      * destruct (Py.dget c h); [reflexivity |]. simpl.
        destruct (Zip.read ar _) as [? | []]; reflexivity.
    + apply same_content_refl.
  - destruct (files d !! fp) as [[ar | raw] |] eqn:Hf; simpl.
    + unfold Zip.read.
      destruct (Zip.getinfo ar _) as [m |] eqn:Hm; simpl; intros [= <- <-].
      * repeat split. intros h. unfold Spec.view, ContentManager.get_content,
          ContentManager.zipfile, cache. unfold_monad. simpl.
        rewrite dget_dset. destruct (decide (href = h)) as [<- | Hne].
        -- rewrite Hc. simpl. rewrite Hf. simpl. unfold Zip.read. rewrite Hm. reflexivity.
        -- destruct (Py.dget c h); [reflexivity |]. simpl. rewrite Hf. simpl.
           destruct (Zip.read ar _) as [? | []]; reflexivity.
      * repeat split. intros h. unfold Spec.view, ContentManager.get_content,
          ContentManager.zipfile, cache. unfold_monad. simpl.
        destruct (Py.dget c h); [reflexivity |]. simpl. rewrite Hf. simpl.
        destruct (Zip.read ar _) as [? | []]; reflexivity.
    + intros [= <- <-]. apply same_content_refl.
    + intros [= <- <-]. apply same_content_refl.
Qed.

(** A cached href is answered from the cache. *)
Lemma get_content_cached (href content : string) (w : World) :
  Py.dget (cache w) href = Some content ->
  ContentManager.get_content href w = (Ok content, w).
Proof.
  intros H. unfold ContentManager.get_content. unfold_monad. rewrite H. reflexivity.
Qed.

(** What [update_content] leaves. *)
Lemma update_content_effect (href new_content : string) (w : World) :
  exists w',
    ContentManager.update_content href new_content w = (Ok tt, w')
    /\ disk w' = disk w
    /\ Model.is_modified (book w') = true
    /\ cache w' = Py.dset (cache w) href new_content.
Proof.
  eexists. unfold ContentManager.update_content. unfold_monad. simpl.
  split; [reflexivity |]. repeat split.
Qed.

(** ** Replacing one search result *)

Section ReplaceSingle.
Context {MK : Soup.Markup}.
Import ReplaceEngine.





End ReplaceSingle.


(** The stale-coordinate guard after an intervening [replace_all]: the
    coordinate of the first ["test"] no longer matches, and the world is
    left as it was. *)
Example replace_single_stale :
  let w := snd (@ReplaceEngine.replace_all reference_markup Re.reference
                  "test" "sample" false true false Fixture.test_world) in
  @ReplaceEngine.replace_single reference_markup Fixture.first_test "quiz" w = (Ok 0, w).
Proof. vm_compute. reflexivity. Qed.

(** ** The reference pattern engine *)

Section ReferenceEngine.
Import Re.

Lemma match_here_bounds (ic : bool) (ats : list atom) (ok : nat -> bool) :
  forall (consumed : nat) (prev : option ascii) (s : list ascii) (n : nat),
    match_here ic ats ok consumed prev s = Some n ->
    consumed <= n /\ n <= consumed + length s.
Proof.
  induction ats as [| a r IH]; intros consumed prev s n; simpl.
  - destruct (ok consumed); [| discriminate]. intros [= <-]. lia.
  - destruct a as [x | x |].
    + destruct s as [| c s']; [discriminate |].
      destruct (single_ok ic x c); [| discriminate].
      intros H. apply IH in H. simpl. lia.
    + revert consumed prev.
      induction s as [| c s' IHs]; intros consumed prev.
      * apply IH.
      * destruct (single_ok ic x c); [| apply IH].
        match goal with
        | |- match ?star_call with _ => _ end = _ -> _ => destruct star_call as [n' |] eqn:Hstar
        end.
        -- intros [= <-]. apply IHs in Hstar. simpl. lia.
        -- apply IH.
    + destruct (at_boundary prev s); [apply IH | discriminate].
Qed.

Lemma scan_bounds (p : ref_pattern) :
  forall (s : list ascii) (prev : option ascii) (pos skip a b : nat),
    In (a, b) (scan p prev s pos skip) ->
    pos <= a /\ a <= b /\ b <= pos + length s.
Proof.
  induction s as [| c s' IH]; intros prev pos skip a b; simpl.
  - destruct skip; [| intros []].
    destruct (match_here _ _ _ 0 prev []) as [[| n] |] eqn:H1.
    + destruct (match_here _ _ (fun n => (0 <? n)%nat) 0 prev []) as [n |] eqn:H2.
      * apply match_here_bounds in H2. simpl in *.
        intros [[= <- <-] | [[= <- <-] | []]]; lia.
      * simpl. intros [[= <- <-] | []]; lia.
    + apply match_here_bounds in H1. simpl in *. lia.
    + intros [].
  - destruct skip as [| k].
    + destruct (match_here _ _ _ 0 prev (c :: s')) as [[| n] |] eqn:H1.
      * destruct (match_here _ _ (fun n => (0 <? n)%nat) 0 prev (c :: s')) as [n |] eqn:H2.
        -- apply match_here_bounds in H2. simpl in *.
           intros [[= <- <-] | [[= <- <-] | H]]; [lia | lia |].
           apply IH in H. lia.
        -- simpl. intros [[= <- <-] | H]; [lia |]. apply IH in H. lia.
      * apply match_here_bounds in H1. simpl in *.
        intros [[= <- <-] | H]; [lia |]. apply IH in H. lia.
      * intros H. apply IH in H. lia.
    + intros H. apply IH in H. lia.
Qed.

(** The reference engine keeps every match inside its subject. *)
Global Instance reference_lawful : Lawful reference.
Proof.
  constructor. intros p s a b H. simpl in H. unfold ref_finditer in H.
  apply scan_bounds in H. rewrite len_chars. lia.
Qed.

End ReferenceEngine.

(** ** Search results *)

Section SearchFacts.
Context {MK : Soup.Markup} {RE : Re.Engine}.
Import SearchEngine.

Lemma node_results_span (href : string) (p : Re.pattern) (i : nat)
    (node : Soup.NavigableString) (r : Model.SearchResult) :
  In r (node_results href p i node) ->
  exists a b,
    In (a, b) (Re.finditer p (Soup.text node))
    /\ Model.match_start r = Z.of_nat a
    /\ Model.match_end r = Z.of_nat b
    /\ Model.match_text r = Re.group0 (Soup.text node) (a, b)
    /\ Model.context r = Soup.text node.
Proof.
  unfold node_results. rewrite in_map_iff. intros ([a b] & <- & Hin).
  exists a, b. simpl. auto.
Qed.

Lemma search_in_file_results (item : Model.ManifestItem) (p : Re.pattern)
    (w w' : World) (rs : list Model.SearchResult) (r : Model.SearchResult) :
  _search_in_file item p w = (Ok rs, w') ->
  In r rs ->
  exists i node, In r (node_results (item_href_str item) p i node).
Proof.
  unfold _search_in_file. unfold_monad.
  destruct (item_content item w) as [[content | e] w1].
  - intros [= <- <-]. rewrite in_flat_map. intros ([i node] & _ & Hin). eauto.
  - destruct e; simpl; try discriminate; intros [= <- <-] [].
Qed.

Lemma search_items_results (p : Re.pattern) (items : list Model.ManifestItem)
    (r : Model.SearchResult) :
  forall w : World,
    In r (yielded (fst (search_items p items w))) ->
    exists href i node, In r (node_results href p i node).
Proof.
  induction items as [| item rest IH]; intros w; simpl; [intros [] |].
  destruct (Model.media_type item) as [mt |]; [| intros []].
  destruct (Py.contains "html" mt); [| apply IH].
  destruct (_search_in_file item p w) as [[rs | e] w1] eqn:Hfile; [| intros []].
  specialize (IH w1). destruct (search_items p rest w1) as [t w2]. simpl in *.
  rewrite in_app_iff. intros [Hin | Hin].
  - destruct (search_in_file_results _ _ _ _ _ _ Hfile Hin) as (i & node & H). eauto.
  - apply IH, Hin.
Qed.

(** C8, as the code has it.  Every result [search] yields lies inside its
    context, [0 <= match_start <= match_end <= len(context)], and
    [match_text] is the slice [context[match_start:match_end]].  The match
    may be empty: [match_start = match_end] is possible. *)
Theorem search_results_within_context {L : Re.Lawful RE}
    (query : string) (case_sensitive whole_word regex : bool) (w : World)
    (r : Model.SearchResult) :
  In r (yielded (fst (search query case_sensitive whole_word regex w))) ->
  (0 <= Model.match_start r <= Model.match_end r)%Z
  /\ (Model.match_end r <= Z.of_nat (Py.len (Model.context r)))%Z
  /\ Py.slice (Model.context r) (Model.match_start r) (Model.match_end r)
     = Model.match_text r.
Proof.
  unfold search.
  destruct (_compile_search_pattern query case_sensitive whole_word regex) as [p | e];
    [| intros []].
  intros Hin. apply search_items_results in Hin as (href & i & node & Hin).
  apply node_results_span in Hin as (a & b & Hspan & -> & -> & -> & ->).
  apply Re.finditer_span in Hspan as [Hab Hb].
  unfold Re.group0. simpl. repeat split; lia.
Qed.

End SearchFacts.

Lemma search_results_within_context_witness :
  (0 <= Model.match_start Fixture.empty_match <= Model.match_end Fixture.empty_match)%Z
  /\ (Model.match_end Fixture.empty_match
      <= Z.of_nat (Py.len (Model.context Fixture.empty_match)))%Z
  /\ Py.slice (Model.context Fixture.empty_match) (Model.match_start Fixture.empty_match)
       (Model.match_end Fixture.empty_match)
     = Model.match_text Fixture.empty_match.
Proof.
  apply (@search_results_within_context reference_markup Re.reference reference_lawful
           "x*" true false true Fixture.test_world Fixture.empty_match).
  vm_compute. left. reflexivity.
Defined.

(** C8, as stated, fails: the pattern [x*] matches the empty string at
    offset 0 of the test document, so a result with
    [match_start = match_end] is yielded. *)
Lemma search_yields_empty_match :
  ~ (forall r : Model.SearchResult,
       In r (yielded (fst (@SearchEngine.search reference_markup Re.reference
                             "x*" true false true Fixture.test_world))) ->
       (Model.match_start r < Model.match_end r)%Z
       /\ (Model.match_end r <= Z.of_nat (Py.len (Model.context r)))%Z
       /\ Py.slice (Model.context r) (Model.match_start r) (Model.match_end r)
          = Model.match_text r).
Proof.
  intros H. destruct (H Fixture.empty_match) as [Hlt _].
  - vm_compute. left. reflexivity.
  - vm_compute in Hlt. discriminate.
Qed.

(** The searches of the repository's tests. *)
Example search_flag_semantics :
  let page := "<html><body><p>This is a sample page with the word Test.</p></body></html>" in
  let w := Fixture.world [Fixture.mimetype;
                          Fixture.deflated "OEBPS/content/page1.xhtml" page]
                         None [Fixture.page1] in
  let found q cs ww rx :=
    map Model.match_text
        (yielded (fst (@SearchEngine.search reference_markup Re.reference q cs ww rx w))) in
  found "test" false true false = ["Test"]
  /\ found "test" true true false = []
  /\ found "sam" false true false = []
  /\ found "sample" false true false = ["sample"]
  /\ found "T..t" true false true = ["Test"].
Proof. vm_compute. repeat split. Qed.

(** ** The saver: what building the temporary archive touches *)

Section SaverFrame.
Import EpubSaver.

Lemma append_nonempty (p ext : string) : ext <> "" -> p +:+ ext <> p.
Proof.
  intros Hext H. induction p as [| c p IH]; simpl in H.
  - contradiction.
  - injection H as H. auto.
Qed.

Lemma temp_path_fresh (fp : string) : temp_path fp <> fp.
Proof. apply append_nonempty. discriminate. Qed.


Lemma backup_not_temp (fp : string) : backup_path fp <> temp_path fp.
Proof.
  unfold backup_path, temp_path, PathLib.add_suffix. intros H.
  apply String.app_inj in H. discriminate.
Qed.

Lemma only_file_changed_refl (path : string) (w : World) : Spec.only_file_changed path w w.
Proof. split; auto. Qed.

Lemma only_file_changed_trans (path : string) (w1 w2 w3 : World) :
  Spec.only_file_changed path w1 w2 -> Spec.only_file_changed path w2 w3 ->
  Spec.only_file_changed path w1 w3.
Proof.
  intros [Hb1 Hf1] [Hb2 Hf2]. split; [congruence |].
  intros p Hp. rewrite Hf2, Hf1 by exact Hp. reflexivity.
Qed.

Lemma confined_ret {A} (path : string) (a : A) : Spec.confined path (mret a).
Proof. intros w r w1 [= <- <-]. apply only_file_changed_refl. Qed.

Lemma confined_raise {A} (path : string) (e : exn) : Spec.confined path (@raise A e).
Proof. intros w r w1 [= <- <-]. apply only_file_changed_refl. Qed.

Lemma confined_get (path : string) : Spec.confined path get_world.
Proof. intros w r w1 [= <- <-]. apply only_file_changed_refl. Qed.

Lemma confined_bind {A B} (path : string) (c : M A) (f : A -> M B) :
  Spec.confined path c -> (forall a, Spec.confined path (f a)) -> Spec.confined path (c ≫= f).
Proof.
  intros Hc Hf w r w1. unfold mbind, M_bind.
  destruct (c w) as [[a | e] w0] eqn:Hcw.
  - intros H. eapply only_file_changed_trans; [eapply Hc, Hcw | eapply Hf, H].
  - intros [= <- <-]. eapply Hc, Hcw.
Qed.

Lemma confined_try {A} (path : string) (c : M A) (h : exn -> option (M A)) :
  Spec.confined path c -> (forall e k, h e = Some k -> Spec.confined path k) ->
  Spec.confined path (try_except c h).
Proof.
  intros Hc Hh w r w1. unfold try_except.
  destruct (c w) as [[a | e] w0] eqn:Hcw.
  - intros [= <- <-]. eapply Hc, Hcw.
  - destruct (h e) as [k |] eqn:Hk.
    + intros H. eapply only_file_changed_trans; [eapply Hc, Hcw | eapply Hh; eauto].
    + intros [= <- <-]. eapply Hc, Hcw.
Qed.

Lemma confined_for_each {A} (path : string) (l : list A) (body : A -> M unit) :
  (forall x, Spec.confined path (body x)) -> Spec.confined path (for_each l body).
Proof.
  intros Hbody. induction l as [| x l IH]; simpl.
  - apply confined_ret.
  - apply confined_bind; [apply Hbody | intros _; exact IH].
Qed.

Lemma confined_charge (path : string) : Spec.confined path charge.
Proof.
  intros w r w1. unfold charge, fs_charge. unfold_monad.
  destruct (quota (disk w)) as [[| n] |]; intros [= <- <-]; split; reflexivity.
Qed.

Lemma confined_put (path : string) (f : FS -> file) :
  Spec.confined path (set_disk (fun d => fs_put path (f d) d)).
Proof.
  intros w r w1. unfold set_disk. intros [= <- <-]. split; [reflexivity |].
  intros p Hp. simpl. apply lookup_insert_ne. congruence.
Qed.

Lemma confined_writestr (path : string) (m : Zip.member) : Spec.confined path (writestr path m).
Proof.
  unfold writestr. apply confined_bind; [apply confined_charge | intros _].
  apply (confined_put path (fun d => ZipFile (archive_at path d ++ [m]))).
Qed.

Lemma confined_open_read (path fp : string) : Spec.confined path (open_read fp).
Proof.
  unfold open_read. apply confined_bind; [apply confined_get | intros w].
  destruct (files (disk w) !! fp) as [[ar | raw] |];
    [apply confined_ret | apply confined_raise | apply confined_raise].
Qed.

(** Steps 1 to 4 of [save] write to the temporary file and nowhere else,
    whether they succeed or fail. *)
Lemma build_temp_confined (fp : string) : Spec.confined (temp_path fp) (build_temp fp).
Proof.
  unfold build_temp.
  apply confined_bind; [apply confined_open_read | intros original_zip].
  unfold with_new_zip, open_write, close_write.
  apply confined_bind.
  { apply confined_bind; [apply confined_charge | intros _].
    apply (confined_put _ (fun _ => ZipFile [])). }
  intros _. apply confined_try.
  - apply confined_bind.
    + apply confined_bind.
      * unfold _write_mimetype.
        destruct (Zip.getinfo original_zip "mimetype");
          [apply confined_writestr | apply confined_raise].
      * intros _. apply confined_bind; [apply confined_get | intros w].
        apply confined_bind.
        -- unfold _write_unmodified_files. apply confined_for_each. intros item.
           destruct (String.eqb _ _); [apply confined_ret |].
           destruct (matches_modified _ _); [apply confined_ret |].
           destruct (Zip.read _ _); [apply confined_writestr | apply confined_raise].
        -- intros _. unfold _write_modified_files.
           apply confined_bind; [apply confined_get | intros w0].
           apply confined_for_each. intros entry. apply confined_writestr.
    + intros _. apply confined_charge.
  - intros e k [= <-].
    apply confined_bind; [apply confined_charge | intros _; apply confined_raise].
Qed.

(** C4.  When building the temporary archive fails with [e], [save] fails
    with [IOError] whose cause is [e]; afterwards the temporary file does
    not exist, every other file of the disk, the original and a former
    backup among them, is what it was, and the book (its modified flag and
    its cache) is unchanged. *)
Theorem save_failure_leaves_original (backup : bool) (w w1 : World) (e : exn) :
  Model.is_modified (book w) = true ->
  build_temp (Model.filepath (book w)) w = (Raise e, w1) ->
  let fp := Model.filepath (book w) in
  exists w',
    save backup w = (Raise (IOError ("Failed to save EPUB file: " +:+ exn_str e) e), w')
    /\ files (disk w') !! temp_path fp = None
    /\ files (disk w') !! fp = files (disk w) !! fp
    /\ files (disk w') !! backup_path fp = files (disk w) !! backup_path fp
    /\ (forall p, p <> temp_path fp -> files (disk w') !! p = files (disk w) !! p)
    /\ book w' = book w.
Proof.
  intros Hmod Hbuild fp.
  destruct (build_temp_confined _ _ _ _ Hbuild) as [Hbook Hfiles].
  fold fp in Hfiles, Hbuild.
  assert (Hsave : exists w',
             save backup w
             = (Raise (IOError ("Failed to save EPUB file: " +:+ exn_str e) e), w')
             /\ files (disk w') !! temp_path fp = None
             /\ (forall p, p <> temp_path fp -> files (disk w') !! p = files (disk w1) !! p)
             /\ book w' = book w1).
  { unfold save. unfold mbind at 1. unfold M_bind at 1. unfold get_world at 1.
    rewrite Hmod. simpl. fold fp. unfold try_except.
    rewrite (bind_raise _ _ _ _ _ Hbuild).
    unfold_monad. simpl.
    destruct (fs_exists (temp_path fp) (disk w1)) eqn:Hex; simpl.
    - eexists. split; [reflexivity |]. simpl. repeat split.
      + apply lookup_delete_eq.
      + intros p Hp. apply lookup_delete_ne. congruence.
    - eexists. split; [reflexivity |]. repeat split.
      unfold fs_exists in Hex. apply bool_decide_eq_false in Hex.
      destruct (files (disk w1) !! temp_path fp) eqn:Hl; [| reflexivity].
      exfalso. apply Hex. eauto. }
  destruct Hsave as (w' & Hrun & Htemp & Hother & Hbook').
  exists w'. split; [exact Hrun |]. split; [exact Htemp |].
  assert (Hall : forall p, p <> temp_path fp -> files (disk w') !! p = files (disk w) !! p).
  { intros p Hp. rewrite Hother, Hfiles by exact Hp. reflexivity. }
  repeat split.
  - apply Hall. intros H. symmetry in H. exact (temp_path_fresh fp H).
  - apply Hall. apply backup_not_temp.
  - exact Hall.
  - congruence.
Qed.

Lemma save_failure_leaves_original_witness :
  exists w',
    save true (Fixture.edited_world (Some 2))
    = (Raise (IOError "Failed to save EPUB file: No space left on device" no_space), w')
    /\ files (disk w') !! "book.epub.tmp" = None
    /\ files (disk w') !! "book.epub" = Some (ZipFile Fixture.test_archive)
    /\ files (disk w') !! "book.epub.bak" = None.
Proof.
  destruct (save_failure_leaves_original true (Fixture.edited_world (Some 2)) _ no_space
              eq_refl eq_refl)
    as (w' & Hrun & Htemp & Horig & Hbak & _ & _).
  exists w'. repeat split; assumption.
Defined.

End SaverFrame.

(** ** The saver: the archive a successful save leaves *)

Section SaverSuccess.
Import EpubSaver.

Lemma bind_ok_inv {A B} (c : M A) (f : A -> M B) (w w2 : World) (b : B) :
  (c ≫= f) w = (Ok b, w2) -> exists a w1, c w = (Ok a, w1) /\ f a w1 = (Ok b, w2).
Proof.
  unfold mbind, M_bind. destruct (c w) as [[a | e] w1]; [eauto | discriminate].
Qed.

Lemma appends_ret (path : string) (b : Model.EpubBook) : Spec.appends path b [] (mret tt).
Proof. intros w w1 ar0 Hb [= <-] Hf. rewrite app_nil_r. auto. Qed.

Lemma appends_raise (path : string) (b : Model.EpubBook) (ms : list Zip.member) (e : exn) :
  Spec.appends path b ms (raise e).
Proof. intros w w1 ar0 _ H. discriminate. Qed.

Lemma appends_bind (path : string) (b : Model.EpubBook) (ms1 ms2 : list Zip.member)
    (c1 c2 : M unit) :
  Spec.appends path b ms1 c1 -> Spec.appends path b ms2 c2 ->
  Spec.appends path b (ms1 ++ ms2) (c1 ;; c2).
Proof.
  intros H1 H2 w w2 ar0 Hb Hrun Hf.
  apply bind_ok_inv in Hrun as ([] & w1 & Hc1 & Hc2).
  destruct (H1 _ _ _ Hb Hc1 Hf) as [Hf1 Hb1].
  destruct (H2 _ _ _ Hb1 Hc2 Hf1) as [Hf2 Hb2].
  rewrite app_assoc. auto.
Qed.

Lemma appends_get_world (path : string) (b : Model.EpubBook) (ms : list Zip.member)
    (k : World -> M unit) :
  (forall w, book w = b -> Spec.appends path b ms (k w)) ->
  Spec.appends path b ms (get_world ≫= k).
Proof.
  intros Hk w w1 ar0 Hb Hrun Hf.
  apply bind_ok_inv in Hrun as (w0 & w0' & [= <- <-] & Hrun).
  eapply Hk; eauto.
Qed.

Lemma charge_ok (w w1 : World) :
  charge w = (Ok tt, w1) -> files (disk w1) = files (disk w) /\ book w1 = book w.
Proof.
  unfold charge, fs_charge. unfold_monad.
  destruct (quota (disk w)) as [[| n] |]; [discriminate | |]; intros [= <-]; auto.
Qed.

Lemma appends_writestr (path : string) (b : Model.EpubBook) (m : Zip.member) :
  Spec.appends path b [m] (writestr path m).
Proof.
  intros w w2 ar0 Hb Hrun Hf. unfold writestr in Hrun.
  apply bind_ok_inv in Hrun as ([] & w1 & Hcharge & Hput).
  apply charge_ok in Hcharge as [Hfiles Hbook].
  unfold set_disk in Hput. injection Hput as <-. simpl.
  split; [| congruence].
  rewrite lookup_insert_eq. unfold archive_at. rewrite Hfiles, Hf. reflexivity.
Qed.

Lemma appends_for_each {A} (path : string) (b : Model.EpubBook) (l : list A)
    (body : A -> M unit) (f : A -> list Zip.member) :
  (forall x, Spec.appends path b (f x) (body x)) ->
  Spec.appends path b (flat_map f l) (for_each l body).
Proof.
  intros Hbody. induction l as [| x l IH]; simpl.
  - apply appends_ret.
  - apply appends_bind; [apply Hbody | exact IH].
Qed.

Lemma flat_map_singleton {A B} (f : A -> B) (l : list A) :
  flat_map (fun x => [f x]) l = map f l.
Proof. induction l as [| x l IH]; simpl; congruence. Qed.

(** The three writing steps, for an archive that has a [mimetype]. *)
Lemma body_appends (path : string) (b : Model.EpubBook) (original_zip : Zip.archive)
    (mimetype : Zip.member) :
  Zip.getinfo original_zip "mimetype" = Some mimetype ->
  let c := Model._content_cache (Model.content_manager b) in
  Spec.appends path b
    ([Zip.with_info (fst mimetype) (snd mimetype) (Some Zip.ZIP_STORED)]
       ++ (Spec.kept original_zip (Py.keys c) ++ map (modified_member original_zip) c))
    (_write_mimetype path original_zip;;
     w ← get_world;
     let modified_files := Py.keys (cache w) in
     _write_unmodified_files path original_zip modified_files;;
     _write_modified_files path original_zip).
Proof.
  intros Hmime c. apply appends_bind.
  - unfold _write_mimetype. rewrite Hmime. apply appends_writestr.
  - apply appends_get_world. intros w Hb.
    assert (Hc : cache w = c) by (unfold cache; rewrite Hb; reflexivity).
    rewrite Hc. apply appends_bind.
    + unfold _write_unmodified_files, Spec.kept. apply appends_for_each.
      intros item. unfold Spec.kept_item, Zip.read.
      destruct (String.eqb _ _); [apply appends_ret |].
      destruct (matches_modified _ _); [apply appends_ret |].
      destruct (Zip.getinfo original_zip (Zip.filename item));
        [apply appends_writestr | apply appends_raise].
    + unfold _write_modified_files. apply appends_get_world. intros w0 Hb0.
      assert (Hc0 : cache w0 = c) by (unfold cache; rewrite Hb0; reflexivity).
      rewrite Hc0. unfold Py.items.
      rewrite <- (flat_map_singleton (modified_member original_zip) c).
      apply appends_for_each. intros entry. apply appends_writestr.
Qed.

(** What a successful build leaves in the temporary file. *)
Lemma build_temp_ok (fp : string) (w w1 : World) :
  build_temp fp w = (Ok tt, w1) ->
  exists ar saved,
    files (disk w) !! fp = Some (ZipFile ar)
    /\ Spec.saved_archive ar (cache w) = Some saved
    /\ files (disk w1) !! temp_path fp = Some (ZipFile saved)
    /\ Spec.only_file_changed (temp_path fp) w w1.
Proof.
  intros Hrun.
  pose proof (build_temp_confined _ _ _ _ Hrun) as Hconf.
  unfold build_temp in Hrun.
  apply bind_ok_inv in Hrun as (ar & w0 & Hopen & Hrun).
  unfold open_read, mbind, M_bind, get_world, mret, M_ret, raise in Hopen.
  destruct (files (disk w) !! fp) as [[ar' | raw] |] eqn:Hf; try discriminate.
  injection Hopen as -> <-.
  unfold with_new_zip in Hrun.
  apply bind_ok_inv in Hrun as ([] & w2 & Hcreate & Hrun).
  unfold open_write in Hcreate.
  apply bind_ok_inv in Hcreate as ([] & w2' & Hcharge & Hput).
  apply charge_ok in Hcharge as [_ Hbook2'].
  unfold set_disk in Hput. injection Hput as <-.
  unfold try_except at 1 in Hrun.
  match type of Hrun with
  | context [match ?c ?w with _ => _ end] => destruct (c w) as [[[] | e] w3] eqn:Hbody
  end.
  - injection Hrun as <-.
    apply bind_ok_inv in Hbody as ([] & w4 & Hbody & Hclose).
    apply charge_ok in Hclose as [Hfiles Hbook].
    destruct (Zip.getinfo ar "mimetype") as [mimetype |] eqn:Hmime.
    + exists ar. eexists. split; [reflexivity |].
      unfold Spec.saved_archive. rewrite Hmime. simpl. split; [reflexivity |].
      split; [| exact Hconf].
      edestruct (body_appends (temp_path fp) (book w) ar mimetype Hmime) as [Hsaved _].
      2: exact Hbody.
      { simpl. exact Hbook2'. }
      { simpl. apply lookup_insert_eq. }
      rewrite Hfiles. exact Hsaved.
    + exfalso. apply bind_ok_inv in Hbody as ([] & w5 & Hm & _).
      unfold _write_mimetype in Hm. rewrite Hmime in Hm. discriminate.
  - exfalso. unfold mbind, M_bind, close_write, raise in Hrun.
    destruct (charge w3) as [[[] | e'] w4]; discriminate.
Qed.

Lemma getinfo_app (l1 l2 : Zip.archive) (name : string) :
  Zip.getinfo (l1 ++ l2) name
  = match Zip.getinfo l2 name with
    | Some m => Some m
    | None => Zip.getinfo l1 name
    end.
Proof.
  induction l1 as [| x l1 IH]; simpl.
  - destruct (Zip.getinfo l2 name); reflexivity.
  - rewrite IH. destruct (Zip.getinfo l2 name); reflexivity.
Qed.

Lemma getinfo_absent (l : Zip.archive) (name : string) :
  (forall m, In m l -> Zip.filename (fst m) <> name) -> Zip.getinfo l name = None.
Proof.
  induction l as [| x l IH]; intros H; simpl; [reflexivity |].
  rewrite IH by (intros m Hm; apply H; right; exact Hm).
  destruct (String.eqb _ _) eqn:E; [| reflexivity].
  apply String.eqb_eq in E. exfalso. apply (H x); [left; reflexivity | exact E].
Qed.

Lemma prefixb_refl (l : list ascii) : Py.prefixb l l = true.
Proof. induction l as [| c l IH]; simpl; [reflexivity |]. rewrite Ascii.eqb_refl. exact IH. Qed.

Lemma endswith_refl (s : string) : Py.endswith s s = true.
Proof. apply prefixb_refl. Qed.

Lemma with_info_same (zi : Zip.ZipInfo) (data : string) :
  Zip.with_info zi data None = (zi, data).
Proof. destruct zi. reflexivity. Qed.

(** A member written from the cache has a name that ends with a cached
    href. *)
Lemma modified_member_matches (original_zip : Zip.archive) (c : Py.dict string string)
    (entry : string * string) :
  In entry c ->
  matches_modified (Py.keys c) (Zip.filename (fst (modified_member original_zip entry))) = true.
Proof.
  intros Hin. destruct entry as [href content].
  unfold matches_modified. apply existsb_exists. exists href. split.
  - unfold Py.keys. apply (in_map fst) in Hin. exact Hin.
  - unfold modified_member, found_info.
    destruct (List.find _ _) as [info |] eqn:Hfind; simpl.
    + apply List.find_some in Hfind as [_ H]. exact H.
    + apply endswith_refl.
Qed.

Lemma kept_getinfo (original_zip : Zip.archive) (modified_files : list string)
    (name : string) (m : Zip.member) :
  name <> "mimetype" ->
  matches_modified modified_files name = false ->
  Zip.getinfo original_zip name = Some m ->
  forall items : Zip.archive,
    Zip.getinfo (flat_map (Spec.kept_item original_zip modified_files) (Zip.infolist items)) name
    = (fun mi : Zip.member => (fst mi, snd m)) <$> Zip.getinfo items name.
Proof.
  intros Hname Hunmatched Hm.
  induction items as [| x xs IH]; [reflexivity |].
  simpl. rewrite getinfo_app, IH.
  destruct (Zip.getinfo xs name) as [mi |]; [reflexivity |]. simpl.
  unfold Spec.kept_item.
  destruct (String.eqb (Zip.filename (fst x)) name) eqn:Ex.
  - apply String.eqb_eq in Ex. rewrite Ex.
    apply String.eqb_neq in Hname. rewrite Hname, Hunmatched, Hm. simpl.
    rewrite with_info_same. simpl. rewrite Ex, String.eqb_refl. reflexivity.
  - destruct (String.eqb (Zip.filename (fst x)) "mimetype"); [reflexivity |].
    destruct (matches_modified modified_files (Zip.filename (fst x))); [reflexivity |].
    destruct (Zip.getinfo original_zip (Zip.filename (fst x))) as [m0 |]; [| reflexivity].
    simpl. rewrite Ex. reflexivity.
Qed.

(** Reading the saved archive under a name no cached href is a suffix
    of. *)
Lemma saved_archive_getinfo (original_zip saved : Zip.archive) (c : Py.dict string string)
    (name : string) (m : Zip.member) :
  Spec.saved_archive original_zip c = Some saved ->
  Zip.getinfo original_zip name = Some m ->
  matches_modified (Py.keys c) name = false ->
  exists m',
    Zip.getinfo saved name = Some m'
    /\ snd m' = snd m
    /\ (name <> "mimetype" -> m' = m).
Proof.
  unfold Spec.saved_archive.
  destruct (Zip.getinfo original_zip "mimetype") as [mimetype |] eqn:Hmime; [| discriminate].
  simpl. intros [= <-] Hm Hunmatched.
  assert (Hmod : Zip.getinfo (map (modified_member original_zip) c) name = None).
  { apply getinfo_absent. intros m0 Hin Heq.
    apply in_map_iff in Hin as (entry & <- & Hin).
    pose proof (modified_member_matches original_zip c entry Hin) as H.
    rewrite Heq in H. congruence. }
  change (?x :: ?l) with ([x] ++ l).
  rewrite !getinfo_app, Hmod.
  destruct (String.eqb name "mimetype") eqn:Ename.
  - apply String.eqb_eq in Ename. subst name.
    assert (Hkept : Zip.getinfo (Spec.kept original_zip (Py.keys c)) "mimetype" = None).
    { apply getinfo_absent. intros m0 Hin Heq. unfold Spec.kept in Hin.
      apply in_flat_map in Hin as (item & _ & Hin). unfold Spec.kept_item in Hin.
      destruct (String.eqb (Zip.filename item) "mimetype") eqn:E; [destruct Hin |].
      destruct (matches_modified (Py.keys c) (Zip.filename item)); [destruct Hin |].
      destruct (Zip.getinfo original_zip (Zip.filename item)); [| destruct Hin].
      destruct Hin as [<- | []]. simpl in Heq. apply String.eqb_neq in E. contradiction. }
    rewrite Hkept. simpl.
    assert (Hfn : Zip.filename (fst mimetype) = "mimetype").
    { clear -Hmime. induction original_zip as [| x xs IH]; simpl in Hmime; [discriminate |].
      destruct (Zip.getinfo xs "mimetype"); [auto |].
      destruct (String.eqb _ _) eqn:E; [| discriminate].
      injection Hmime as <-. apply String.eqb_eq, E. }
    rewrite Hfn. simpl. eexists. split; [reflexivity |].
    split; [simpl; congruence | congruence].
  - apply String.eqb_neq in Ename.
    unfold Spec.kept. rewrite (kept_getinfo _ _ _ _ Ename Hunmatched Hm), Hm. simpl.
    exists m. destruct m. auto.
Qed.


End SaverSuccess.



(** The save of [Fixture.suffix_edited] in full. *)
Example save_suffix_edited :
  fst (EpubSaver.save true Fixture.suffix_edited) = Ok tt
  /\ map (fun m => Zip.filename (fst m))
         (EpubSaver.archive_at Fixture.epub_path
            (disk (snd (EpubSaver.save true Fixture.suffix_edited))))
     = ["mimetype"; "META-INF/container.xml"; "OEBPS/content.opf"; "OEBPS/text.xhtml"]
  /\ files (disk (snd (EpubSaver.save true Fixture.suffix_edited))) !! "book.epub.bak"
     = Some (ZipFile Fixture.suffix_archive)
  /\ files (disk (snd (EpubSaver.save true Fixture.suffix_edited))) !! "book.epub.tmp" = None
  /\ cache (snd (EpubSaver.save true Fixture.suffix_edited)) = []
  /\ Model.is_modified (book (snd (EpubSaver.save true Fixture.suffix_edited))) = false.
Proof. vm_compute. repeat split. Qed.

(** An unmodified book is not saved at all. *)
Lemma save_unmodified (backup : bool) (w : World) :
  Model.is_modified (book w) = false -> EpubSaver.save backup w = (Ok tt, w).
Proof.
  intros H. unfold EpubSaver.save. unfold_monad. rewrite H. reflexivity.
Qed.

(** ** Resolving an href: what does hold *)

(** On a miss, with the archive open, [get_content] reads the member at
    the decoded href joined to [opf_dir], caches it under the href as
    given, and raises [FileNotFoundError] exactly when the archive has no
    member of that name. *)
Lemma get_content_miss (href : string) (w : World) (ar : Zip.archive) :
  Py.dget (cache w) href = None ->
  Model._zipfile (Model.content_manager (book w)) = Some ar ->
  let full_path := ContentManager.full_path (Model.opf_dir (book w)) href in
  ContentManager.get_content href w
  = match Zip.getinfo ar full_path with
    | Some m =>
        (Ok (snd m),
         {| disk := disk w; book := Model.with_cache (Py.dset (cache w) href (snd m)) (book w) |})
    | None =>
        (Raise (FileNotFoundError
                  ("Could not find '" +:+ full_path +:+ "' in the EPUB archive.")), w)
    end.
Proof.
  intros Hmiss Hzip. simpl.
  unfold ContentManager.get_content, ContentManager.zipfile, Zip.read. unfold_monad.
  rewrite Hmiss, Hzip.
  destruct (Zip.getinfo ar _); reflexivity.
Qed.

(* ================================================================== *)
(** * Further properties of the code *)
(* ================================================================== *)

(** ** The content cache: memoization and edits *)

Lemma same_content_trans (w1 w2 w3 : World) :
  Spec.same_content w1 w2 -> Spec.same_content w2 w3 -> Spec.same_content w1 w3.
Proof.
  intros (Hd1 & Hm1 & Hv1) (Hd2 & Hm2 & Hv2).
  split; [congruence |]. split; [congruence |].
  intros href. rewrite Hv2. apply Hv1.
Qed.

Lemma get_content_ok_cached (href content : string) (w w1 : World) :
  ContentManager.get_content href w = (Ok content, w1) ->
  Py.dget (cache w1) href = Some content.
Proof.
  destruct_world w.
  unfold ContentManager.get_content, ContentManager.zipfile, cache. unfold_monad. simpl.
  destruct (Py.dget c href) as [content' |] eqn:Hc.
  { intros [= <- <-]. exact Hc. }
  destruct z as [ar |]; simpl.
  - destruct (Zip.read ar _) as [data | []]; simpl; try discriminate.
    intros [= <- <-]. simpl. apply dget_dset_eq.
  - destruct (files d !! fp) as [[ar | raw] |]; simpl; try discriminate.
    destruct (Zip.read ar _) as [data | []]; simpl; try discriminate.
    intros [= <- <-]. simpl. apply dget_dset_eq.
Qed.

(** A read never drops or changes an entry of the cache. *)
Lemma get_content_keeps_cache (href h c0 : string) (w w1 : World) (r : result string) :
  ContentManager.get_content href w = (r, w1) ->
  Py.dget (cache w) h = Some c0 ->
  Py.dget (cache w1) h = Some c0.
Proof.
  intros Hrun Hh. revert Hrun. destruct_world w. unfold cache in Hh. simpl in Hh.
  unfold ContentManager.get_content, ContentManager.zipfile, cache. unfold_monad. simpl.
  destruct (Py.dget c href) as [content' |] eqn:Hc.
  { intros [= <- <-]. exact Hh. }
  assert (Hne : href <> h) by (intros ->; congruence).
  destruct z as [ar |]; simpl.
  - destruct (Zip.read ar _) as [data | []]; simpl; intros [= <- <-]; simpl;
      try exact Hh.
    rewrite dget_dset_ne; assumption.
  - destruct (files d !! fp) as [[ar | raw] |]; simpl;
      try (intros [= <- <-]; simpl; exact Hh).
    destruct (Zip.read ar _) as [data | []]; simpl; intros [= <- <-]; simpl;
      try exact Hh.
    rewrite dget_dset_ne; assumption.
Qed.

(** X1.  Once [get_content] has returned the bytes of an href, it returns
    the same bytes again without touching the world, whatever the disk
    holds by then: the file may have been replaced or removed. *)
Theorem get_content_memoized (href content : string) (w w1 : World) (d : FS) :
  ContentManager.get_content href w = (Ok content, w1) ->
  ContentManager.get_content href {| disk := d; book := book w1 |}
  = (Ok content, {| disk := d; book := book w1 |}).
Proof.
  intros H. apply get_content_ok_cached in H.
  apply get_content_cached. exact H.
Qed.

Lemma get_content_memoized_witness :
  ContentManager.get_content "content/page1.xhtml"
    {| disk := {| files := ∅; quota := None |};
       book := book (snd (ContentManager.get_content "content/page1.xhtml"
                            Fixture.test_world)) |}
  = (Ok Fixture.page1_src,
     {| disk := {| files := ∅; quota := None |};
        book := book (snd (ContentManager.get_content "content/page1.xhtml"
                             Fixture.test_world)) |}).
Proof.
  apply (get_content_memoized "content/page1.xhtml" Fixture.page1_src Fixture.test_world
           (snd (ContentManager.get_content "content/page1.xhtml" Fixture.test_world))).
  vm_compute. reflexivity.
Defined.

(** X2.  After [update_content href new_content], a read of [href]
    returns [new_content] and changes nothing; the content of every other
    href is what it was; the book is marked modified and the disk is
    untouched. *)
Theorem update_then_get (href new_content : string) (w : World) :
  let w' := snd (ContentManager.update_content href new_content w) in
  ContentManager.update_content href new_content w = (Ok tt, w')
  /\ ContentManager.get_content href w' = (Ok new_content, w')
  /\ (forall h, h <> href -> Spec.view w' h = Spec.view w h)
  /\ Model.is_modified (book w') = true
  /\ disk w' = disk w.
Proof.
  destruct_world w. simpl.
  unfold ContentManager.update_content. unfold_monad. simpl.
  split; [reflexivity |]. split.
  - apply get_content_cached. unfold cache. simpl. apply dget_dset_eq.
  - repeat split. intros h Hne.
    unfold Spec.view, ContentManager.get_content, ContentManager.zipfile, cache.
    unfold_monad. simpl.
    rewrite dget_dset_ne by congruence.
    destruct (Py.dget c h); [reflexivity |]. simpl.
    destruct z as [ar |]; simpl.
    + destruct (Zip.read ar _) as [? | []]; reflexivity.
    + destruct (files d !! fp) as [[ar | raw] |]; simpl; try reflexivity.
      destruct (Zip.read ar _) as [? | []]; reflexivity.
Qed.

(** ** Search leaves the book alone *)

Section SearchFrame.
Context {MK : Soup.Markup} {RE : Re.Engine}.
Import SearchEngine.

Lemma item_content_same (item : Model.ManifestItem) (w w1 : World) (r : result string) :
  item_content item w = (r, w1) -> Spec.same_content w w1.
Proof.
  unfold item_content. destruct (Model.href item) as [h |].
  - apply get_content_same_content.
  - intros [= <- <-]. apply same_content_refl.
Qed.

Lemma search_in_file_same (item : Model.ManifestItem) (p : Re.pattern) (w w1 : World)
    (r : result (list Model.SearchResult)) :
  _search_in_file item p w = (r, w1) -> Spec.same_content w w1.
Proof.
  unfold _search_in_file, try_except, mbind, M_bind.
  destruct (item_content item w) as [[content | e] w0] eqn:Hc;
    apply item_content_same in Hc.
  - unfold mret, M_ret. intros [= <- <-]. exact Hc.
  - destruct e; simpl; unfold mret, M_ret; intros [= <- <-]; exact Hc.
Qed.

Lemma search_items_same (p : Re.pattern) (items : list Model.ManifestItem) :
  forall w, Spec.same_content w (snd (search_items p items w)).
Proof.
  induction items as [| item rest IH]; intros w; simpl.
  - apply same_content_refl.
  - destruct (Model.media_type item) as [mt |]; [| apply same_content_refl].
    destruct (Py.contains "html" mt); [| apply IH].
    destruct (_search_in_file item p w) as [[rs | e] w1] eqn:Hfile;
      apply search_in_file_same in Hfile.
    + specialize (IH w1). destruct (search_items p rest w1) as [t w2]. simpl in *.
      eapply same_content_trans; eassumption.
    + exact Hfile.
Qed.

(** X3.  [search] does not edit: whatever the query and however it ends,
    the disk, the modified flag and the content of every href are after
    the search what they were before. *)
Theorem search_same_content (query : string) (case_sensitive whole_word regex : bool)
    (w : World) :
  Spec.same_content w (snd (search query case_sensitive whole_word regex w)).
Proof.
  unfold search.
  destruct (_compile_search_pattern query case_sensitive whole_word regex) as [p | e].
  - apply search_items_same.
  - apply same_content_refl.
Qed.

Lemma search_in_file_not_missing (item : Model.ManifestItem) (p : Re.pattern)
    (w w1 : World) (e : exn) :
  _search_in_file item p w = (Raise e, w1) -> ~ Laws.missing e.
Proof.
  unfold _search_in_file, try_except, mbind, M_bind.
  destruct (item_content item w) as [[content | e0] w0].
  - discriminate.
  - destruct e0; simpl; unfold mret, M_ret; intros [= <- <-] H; exact H.
Qed.

Lemma search_items_not_missing (p : Re.pattern) (items : list Model.ManifestItem) (e : exn) :
  forall w, raised (fst (search_items p items w)) = Some e -> ~ Laws.missing e.
Proof.
  induction items as [| item rest IH]; intros w; simpl; [discriminate |].
  destruct (Model.media_type item) as [mt |]; [| intros [= <-] H; exact H].
  destruct (Py.contains "html" mt); [| apply IH].
  destruct (_search_in_file item p w) as [[rs | e0] w1] eqn:Hfile.
  - specialize (IH w1). destruct (search_items p rest w1) as [t w2]. exact IH.
  - simpl. intros [= <-]. eapply search_in_file_not_missing, Hfile.
Qed.

End SearchFrame.

(** ** A fresh search result can be replaced *)

Section SearchThenReplace.
Context {MK : Soup.Markup} {RE : Re.Engine}.
Import SearchEngine.

Lemma item_content_keeps_cache (item : Model.ManifestItem) (h c0 : string)
    (w w1 : World) (r : result string) :
  item_content item w = (r, w1) ->
  Py.dget (cache w) h = Some c0 -> Py.dget (cache w1) h = Some c0.
Proof.
  unfold item_content. destruct (Model.href item) as [h' |].
  - apply get_content_keeps_cache.
  - intros [= <- <-]. auto.
Qed.

Lemma search_in_file_keeps_cache (item : Model.ManifestItem) (p : Re.pattern) (h c0 : string)
    (w w1 : World) (r : result (list Model.SearchResult)) :
  _search_in_file item p w = (r, w1) ->
  Py.dget (cache w) h = Some c0 -> Py.dget (cache w1) h = Some c0.
Proof.
  unfold _search_in_file, try_except, mbind, M_bind.
  destruct (item_content item w) as [[content | e] w0] eqn:Hc; intros Hrun Hh;
    pose proof (item_content_keeps_cache _ _ _ _ _ _ Hc Hh) as Hkeep.
  - unfold mret, M_ret in Hrun. injection Hrun as <- <-. exact Hkeep.
  - destruct e; simpl in Hrun; unfold mret, M_ret in Hrun; injection Hrun as <- <-;
      exact Hkeep.
Qed.

Lemma search_items_keep_cache (p : Re.pattern) (items : list Model.ManifestItem) (h c0 : string) :
  forall w,
    Py.dget (cache w) h = Some c0 ->
    Py.dget (cache (snd (search_items p items w))) h = Some c0.
Proof.
  induction items as [| item rest IH]; intros w Hh; simpl; [exact Hh |].
  destruct (Model.media_type item) as [mt |]; [| exact Hh].
  destruct (Py.contains "html" mt); [| apply IH, Hh].
  destruct (_search_in_file item p w) as [[rs | e] w1] eqn:Hfile;
    pose proof (search_in_file_keeps_cache _ _ _ _ _ _ _ Hfile Hh) as Hkeep.
  - specialize (IH w1 Hkeep). destruct (search_items p rest w1) as [t w2]. exact IH.
  - exact Hkeep.
Qed.

Lemma located_keeps (w w1 : World) (r : Model.SearchResult) :
  (forall h c0, Py.dget (cache w) h = Some c0 -> Py.dget (cache w1) h = Some c0) ->
  Laws.located w r -> Laws.located w1 r.
Proof.
  intros Hkeep (content & i & node & Hc & Hn & Hi & Hs).
  exists content, i, node. auto.
Qed.

Lemma search_in_file_located (item : Model.ManifestItem) (p : Re.pattern)
    (w w1 : World) (rs : list Model.SearchResult) (r : Model.SearchResult) :
  _search_in_file item p w = (Ok rs, w1) -> In r rs -> Laws.located w1 r.
Proof.
  unfold _search_in_file, try_except, mbind, M_bind.
  destruct (item_content item w) as [[content | e] w0] eqn:Hc.
  - unfold mret, M_ret. intros [= <- <-] Hin.
    unfold item_content in Hc. destruct (Model.href item) as [h |] eqn:Hh; [| discriminate].
    apply get_content_ok_cached in Hc.
    apply in_flat_map in Hin as ([i node] & Hentry & Hin).
    unfold enumerate in Hentry. apply list_elem_of_In, elem_of_lookup_imap in Hentry
      as (i' & node' & [= -> ->] & Hnode).
    unfold node_results in Hin. apply in_map_iff in Hin as ([a b] & <- & _).
    exists content, i', node'. simpl. unfold item_href_str. rewrite Hh. simpl.
    repeat split; assumption.
  - destruct e; simpl; unfold mret, M_ret; try discriminate; intros [= <- <-] [].
Qed.

Lemma search_items_located (p : Re.pattern) (items : list Model.ManifestItem)
    (r : Model.SearchResult) :
  forall w,
    In r (yielded (fst (search_items p items w))) ->
    Laws.located (snd (search_items p items w)) r.
Proof.
  induction items as [| item rest IH]; intros w; simpl; [intros [] |].
  destruct (Model.media_type item) as [mt |]; [| intros []].
  destruct (Py.contains "html" mt); [| apply IH].
  destruct (_search_in_file item p w) as [[rs | e] w1] eqn:Hfile; [| intros []].
  specialize (IH w1).
  pose proof (fun h c0 => search_items_keep_cache p rest h c0 w1) as Hkeep.
  destruct (search_items p rest w1) as [t w2]. simpl in *.
  rewrite in_app_iff. intros [Hin | Hin].
  - eapply located_keeps; [exact Hkeep |].
    eapply search_in_file_located; eassumption.
  - apply IH, Hin.
Qed.

Lemma replace_single_located (r : Model.SearchResult) (replace_text : string) (w : World) :
  Laws.located w r ->
  exists w2,
    ReplaceEngine.replace_single r replace_text w = (Ok 1, w2)
    /\ Model.is_modified (book w2) = true.
Proof.
  intros (content & i & node & Hc & Hn & Hi & Hs).
  pose proof (get_content_cached _ _ _ Hc) as Hget.
  unfold ReplaceEngine.replace_single, try_except.
  rewrite (bind_ok _ _ _ _ _ Hget).
  pose proof (lookup_lt_Some _ _ _ Hn) as Hlt.
  rewrite Hi.
  destruct (Z.of_nat (length (Soup.find_all_strings (Soup.parse content))) <=? Z.of_nat i)%Z
    eqn:Hguard; [apply Z.leb_le in Hguard; lia |].
  rewrite norm_index_nonneg by lia.
  destruct (Z.of_nat i <? Z.of_nat (length (Soup.find_all_strings (Soup.parse content))))%Z
    eqn:Hin; [| apply Z.ltb_ge in Hin; lia].
  rewrite Nat2Z.id, Hn. simpl.
  apply String.eqb_eq in Hs. rewrite Hs. simpl.
  eexists. split; reflexivity.
Qed.

(** X4.  A result [search] has just yielded can be replaced: passed to
    [replace_single] in the world the search left, with no edit in
    between, it is applied, whatever the replacement text: the call
    returns 1 and the book is marked modified. *)
Theorem fresh_result_is_replaced (query : string) (case_sensitive whole_word regex : bool)
    (w : World) (r : Model.SearchResult) (replace_text : string) :
  In r (yielded (fst (search query case_sensitive whole_word regex w))) ->
  exists w2,
    ReplaceEngine.replace_single r replace_text
      (snd (search query case_sensitive whole_word regex w))
    = (Ok 1, w2)
    /\ Model.is_modified (book w2) = true.
Proof.
  unfold search.
  destruct (_compile_search_pattern query case_sensitive whole_word regex) as [p | e];
    [| intros []].
  intros Hin. apply replace_single_located. apply search_items_located, Hin.
Qed.

End SearchThenReplace.

Lemma fresh_result_is_replaced_witness :
  exists w2,
    @ReplaceEngine.replace_single reference_markup Fixture.first_test "quiz"
      (snd (@SearchEngine.search reference_markup Re.reference
              "test" false true false Fixture.test_world))
    = (Ok 1, w2)
    /\ Model.is_modified (book w2) = true.
Proof.
  apply (@fresh_result_is_replaced reference_markup Re.reference
           "test" false true false Fixture.test_world Fixture.first_test "quiz").
  vm_compute. left. reflexivity.
Defined.

(** ** Replace-all: what it touches and what it counts *)

Section ReplaceAllFacts.
Context {MK : Soup.Markup} {RE : Re.Engine}.
Import ReplaceEngine.

Lemma enumerate_snoc {A} (l : list A) (x : A) :
  enumerate (l ++ [x]) = enumerate l ++ [(length l, x)].
Proof.
  unfold enumerate. rewrite imap_app. simpl. rewrite Nat.add_0_r. reflexivity.
Qed.

(** The loop over a prefix [done] of the strings of [soup]. *)
Lemma replace_loop_prefix (p : Re.pattern) (replace : string) (soup : Soup.node) :
  forall done rest : list Soup.NavigableString,
    Soup.find_all_strings soup = done ++ rest ->
    let out := fold_left (replace_node p replace) (enumerate done) (soup, 0) in
    map Soup.text (Soup.find_all_strings (fst out))
    = map (Laws.new_text p replace) done ++ map Soup.text rest
    /\ snd out = list_sum (map (Laws.node_count p replace) done).
Proof.
  induction done as [| x done IH] using rev_ind; intros rest Hall.
  - simpl. rewrite Hall. auto.
  - rewrite <- app_assoc in Hall. simpl in Hall.
    destruct (IH (x :: rest) Hall) as [Htexts Hcount].
    rewrite enumerate_snoc, fold_left_app. simpl.
    destruct (fold_left (replace_node p replace) (enumerate done) (soup, 0)) as [soup0 n0].
    simpl in Htexts, Hcount.
    rewrite !map_app, list_sum_app. simpl. rewrite <- Hcount.
    set (texts_done := map (Laws.new_text p replace) done) in *.
    assert (Hlen : length texts_done = length done) by apply length_map.
    unfold replace_node, Laws.new_text, Laws.node_count, Laws.skipped.
    destruct (bool_decide (Soup.parent_name x ∈ ["style"; "script"])); simpl.
    + rewrite Htexts, <- app_assoc. simpl. split; [reflexivity | lia].
    + destruct (Re.subn p replace (Soup.text x)) as [new_content num_subs]. simpl.
      destruct (0 <? num_subs)%nat eqn:Hsubs; simpl.
      * rewrite replace_with_strings, Htexts, <- app_assoc. simpl.
        split; [| lia].
        rewrite insert_app_r_alt by lia.
        rewrite Hlen, Nat.sub_diag. reflexivity.
      * apply Nat.ltb_ge in Hsubs.
        rewrite Htexts, <- app_assoc. simpl. split; [reflexivity | lia].
Qed.

(** X5.  The loop of [_replace_in_file] over the strings of a document:
    a string inside a [style] or [script] element keeps its text; any
    other string gets the text [subn] returns when [subn] replaced
    something, and keeps its text otherwise; no string is added, dropped
    or moved; and the count is the sum of the counts [subn] gave on the
    strings outside [style] and [script]. *)
Theorem replace_loop_texts (p : Re.pattern) (replace : string) (soup : Soup.node) :
  let text_nodes := Soup.find_all_strings soup in
  let out := fold_left (replace_node p replace) (enumerate text_nodes) (soup, 0) in
  map Soup.text (Soup.find_all_strings (fst out)) = map (Laws.new_text p replace) text_nodes
  /\ snd out = list_sum (map (Laws.node_count p replace) text_nodes).
Proof.
  simpl.
  destruct (replace_loop_prefix p replace soup (Soup.find_all_strings soup) [])
    as [Htexts Hcount].
  - rewrite app_nil_r. reflexivity.
  - simpl in Htexts. rewrite app_nil_r in Htexts. auto.
Qed.

(** The three ways [_replace_in_file] ends. *)
Lemma replace_in_file_cases (item : Model.ManifestItem) (p : Re.pattern) (replace : string)
    (w w1 : World) (r : result nat) :
  _replace_in_file item p replace w = (r, w1) ->
  disk w1 = disk w
  /\ ((exists e, r = Raise e /\ ~ Laws.missing e /\ Spec.same_content w w1)
      \/ (r = Ok 0 /\ Spec.same_content w w1)
      \/ (exists n, r = Ok n /\ 0 < n /\ Model.is_modified (book w1) = true)).
Proof.
  unfold _replace_in_file, try_except. unfold mbind at 1. unfold M_bind at 1.
  destruct (item_content item w) as [[content | e] w0] eqn:Hc;
    apply item_content_same in Hc; pose proof Hc as (Hdisk & _ & _).
  - destruct (fold_left _ _ _) as [soup' n].
    destruct (0 <? n)%nat eqn:Hn.
    + apply Nat.ltb_lt in Hn.
      unfold ContentManager.update_content. unfold_monad. simpl.
      intros [= <- <-]. simpl. split; [exact Hdisk |].
      right. right. exists n. auto.
    + apply Nat.ltb_ge in Hn. assert (n = 0) as -> by lia.
      unfold_monad. intros [= <- <-]. split; [exact Hdisk |]. right. left. auto.
  - destruct e; simpl; unfold mret, M_ret; intros [= <- <-]; (split; [exact Hdisk |]);
      try (right; left; split; [reflexivity | exact Hc]);
      left; eexists; (split; [reflexivity |]); (split; [| exact Hc]); intros H; exact H.
Qed.

Lemma replace_items_facts (p : Re.pattern) (replace : string)
    (items : list Model.ManifestItem) :
  forall (total : nat) (w w' : World) (r : result nat),
    replace_items p replace items total w = (r, w') ->
    disk w' = disk w
    /\ (Model.is_modified (book w) = true -> Model.is_modified (book w') = true)
    /\ match r with
       | Raise e => ~ Laws.missing e
       | Ok n =>
           total <= n
           /\ (n = total -> Spec.same_content w w')
           /\ (total < n -> Model.is_modified (book w') = true)
       end.
Proof.
  induction items as [| item rest IH]; intros total w w' r; simpl.
  - unfold mret, M_ret. intros [= <- <-].
    repeat split; auto; try lia.
  - destruct (Model.media_type item) as [mt |].
    2: { unfold raise. intros [= <- <-]. repeat split; auto. }
    destruct (Py.contains "html" mt); [| apply IH].
    unfold mbind, M_bind.
    destruct (_replace_in_file item p replace w) as [[n | e] w1] eqn:Hfile;
      apply replace_in_file_cases in Hfile as [Hdisk Hcases].
    + intros Hrest. apply IH in Hrest as (Hdisk' & Hmono & Hr).
      assert (Hkeep : Model.is_modified (book w) = true -> Model.is_modified (book w1) = true).
      { destruct Hcases as [(e & [=] & _) | [[_ (_ & Hm & _)] | (n' & _ & _ & Hm)]];
          [congruence | auto]. }
      split; [congruence |]. split; [auto |].
      destruct r as [m | e]; [| exact Hr].
      destruct Hr as (Hle & Hsame & Hmod).
      destruct Hcases as [(e & [=] & _) | [[[= ->] Hs] | (n' & [= <-] & Hpos & Hm)]].
      * rewrite Nat.add_0_r in *.
        split; [exact Hle |]. split; [| exact Hmod].
        intros Heq. eapply same_content_trans; [exact Hs | auto].
      * split; [lia |]. split; [lia |]. intros _.
        destruct (Nat.eq_dec m (total + n)) as [-> | Hne].
        -- destruct (Hsame eq_refl) as (_ & Hflag & _). congruence.
        -- apply Hmod. lia.
    + intros [= <- <-].
      destruct Hcases as [(e' & [= <-] & Hnm & Hs) | [[[=] _] | (n' & [=] & _)]].
      destruct Hs as (_ & Hflag & _).
      split; [exact Hdisk |]. split; [congruence | exact Hnm].
Qed.

(** X6.  [replace_all] never writes to the disk.  When it returns 0, the
    modified flag and the content of every href are what they were; when
    it returns a positive count, the book is marked modified. *)
Theorem replace_all_count_and_effect (find replace : string)
    (case_sensitive whole_word regex : bool) (w w' : World) (n : nat) :
  replace_all find replace case_sensitive whole_word regex w = (Ok n, w') ->
  disk w' = disk w
  /\ (n = 0 -> Spec.same_content w w')
  /\ (0 < n -> Model.is_modified (book w') = true).
Proof.
  unfold replace_all.
  destruct (Re.compile _ _) as [p |]; [| discriminate].
  unfold mbind, M_bind, get_world. intros H.
  apply replace_items_facts in H as (Hdisk & _ & _ & Hsame & Hmod).
  auto.
Qed.

(** X7.  Content that cannot be fetched never aborts a search or a
    replace-all: neither ends with [FileNotFoundError] or [KeyError],
    also when the EPUB file itself is gone. *)
Theorem missing_content_never_escapes (query replace : string)
    (case_sensitive whole_word regex : bool) (w : World) (e : exn) :
  (raised (fst (SearchEngine.search query case_sensitive whole_word regex w)) = Some e ->
   ~ Laws.missing e)
  /\ (fst (replace_all query replace case_sensitive whole_word regex w) = Raise e ->
      ~ Laws.missing e).
Proof.
  split.
  - unfold SearchEngine.search.
    destruct (SearchEngine._compile_search_pattern _ _ _ _) as [p | e0] eqn:Hp.
    + apply search_items_not_missing.
    + unfold SearchEngine._compile_search_pattern in Hp.
      destruct (Re.compile _ _); [discriminate |]. injection Hp as <-.
      simpl. intros [= <-] H. exact H.
  - unfold replace_all.
    destruct (Re.compile _ _) as [p |].
    + unfold mbind, M_bind, get_world.
      destruct (replace_items p replace _ 0 w) as [r w'] eqn:Hrun.
      apply replace_items_facts in Hrun as (_ & _ & Hr).
      simpl. intros ->. exact Hr.
    + simpl. intros [= <-] H. exact H.
Qed.

Lemma batch_loop_acc (operations : list (string * string))
    (case_sensitive whole_word regex : bool) :
  forall (total : nat) (w : World),
    batch_loop operations case_sensitive whole_word regex total w
    = (n ← batch_loop operations case_sensitive whole_word regex 0; mret (total + n)) w.
Proof.
  induction operations as [| [find replace] rest IH]; intros total w; simpl.
  - unfold_monad. rewrite Nat.add_0_r. reflexivity.
  - unfold mbind at 1 2 3. unfold M_bind at 1 2 3.
    destruct (replace_all find replace case_sensitive whole_word regex w) as [[n | e] w1];
      [| reflexivity].
    rewrite (IH (total + n)), (IH (0 + n)). unfold mbind, M_bind.
    destruct (batch_loop rest case_sensitive whole_word regex 0 w1) as [[m | e] w2];
      [| reflexivity].
    unfold mret, M_ret. do 2 f_equal. lia.
Qed.

Lemma batch_loop_app (first second : list (string * string))
    (case_sensitive whole_word regex : bool) :
  forall (total : nat) (w : World),
    batch_loop (first ++ second) case_sensitive whole_word regex total w
    = (n1 ← batch_loop first case_sensitive whole_word regex total;
       batch_loop second case_sensitive whole_word regex n1) w.
Proof.
  induction first as [| [find replace] rest IH]; intros total w; simpl.
  - reflexivity.
  - unfold mbind at 1 2 3. unfold M_bind at 1 2 3.
    destruct (replace_all find replace case_sensitive whole_word regex w) as [[n | e] w1];
      [| reflexivity].
    apply IH.
Qed.

(** X8.  A batch splits at any point: running the rules [first ++ second]
    is running [first], then [second] in the world [first] left, and
    adding the two counts; when a rule of [first] raises, [second] is not
    run and the edits made until then stay. *)
Theorem batch_replace_all_app (first second : list (string * string))
    (case_sensitive whole_word regex : bool) (w : World) :
  batch_replace_all (first ++ second) case_sensitive whole_word regex w
  = (n1 ← batch_replace_all first case_sensitive whole_word regex;
     n2 ← batch_replace_all second case_sensitive whole_word regex;
     mret (n1 + n2)) w.
Proof.
  unfold batch_replace_all. rewrite batch_loop_app.
  unfold mbind at 1 2. unfold M_bind at 1 2.
  destruct (batch_loop first case_sensitive whole_word regex 0 w) as [[n1 | e] w1];
    [| reflexivity].
  apply batch_loop_acc.
Qed.

End ReplaceAllFacts.

Lemma replace_all_count_and_effect_witness :
  disk (snd (@ReplaceEngine.replace_all reference_markup Re.reference
               "test" "sample" false true false Fixture.test_world))
  = disk Fixture.test_world
  /\ (2 = 0 ->
      Spec.same_content Fixture.test_world
        (snd (@ReplaceEngine.replace_all reference_markup Re.reference
                "test" "sample" false true false Fixture.test_world)))
  /\ (0 < 2 ->
      Model.is_modified
        (book (snd (@ReplaceEngine.replace_all reference_markup Re.reference
                      "test" "sample" false true false Fixture.test_world))) = true).
Proof.
  apply (@replace_all_count_and_effect reference_markup Re.reference
           "test" "sample" false true false Fixture.test_world).
  vm_compute. reflexivity.
Defined.

Lemma missing_content_never_escapes_witness :
  (raised (fst (@SearchEngine.search reference_markup Re.reference
                  "test" true false false Fixture.untyped_world)) = Some TypeError ->
   ~ Laws.missing TypeError)
  /\ (fst (@ReplaceEngine.replace_all reference_markup Re.reference
             "test" "quiz" true false false Fixture.untyped_world) = Raise TypeError ->
      ~ Laws.missing TypeError).
Proof.
  exact (@missing_content_never_escapes reference_markup Re.reference
           "test" "quiz" true false false Fixture.untyped_world TypeError).
Defined.

(** ** The saver: a successful save *)

Section SaveSuccess.
Import EpubSaver.

Lemma getinfo_name (ar : Zip.archive) (name : string) (m : Zip.member) :
  Zip.getinfo ar name = Some m -> Zip.filename (fst m) = name.
Proof.
  induction ar as [| x xs IH]; simpl; [discriminate |].
  destruct (Zip.getinfo xs name); [exact IH |].
  destruct (String.eqb _ _) eqn:E; [| discriminate].
  intros [= <-]. apply String.eqb_eq, E.
Qed.

(** The shape of a successful save. *)
Lemma save_ok (backup : bool) (w w' : World) :
  Model.is_modified (book w) = true ->
  save backup w = (Ok tt, w') ->
  let fp := Model.filepath (book w) in
  exists ar saved w1,
    files (disk w) !! fp = Some (ZipFile ar)
    /\ Spec.saved_archive ar (cache w) = Some saved
    /\ files (disk w1) !! temp_path fp = Some (ZipFile saved)
    /\ Spec.only_file_changed (temp_path fp) w w1
    /\ disk w'
       = fs_replace (temp_path fp) fp
           (if backup && fs_exists fp (disk w1)
            then fs_replace fp (backup_path fp) (disk w1) else disk w1)
    /\ book w' = Model.with_cache [] (Model.with_modified false (book w)).
Proof.
  intros Hmod Hsave fp.
  unfold save in Hsave. unfold mbind at 1, M_bind at 1, get_world at 1 in Hsave.
  rewrite Hmod in Hsave. simpl in Hsave. fold fp in Hsave.
  unfold try_except in Hsave.
  match type of Hsave with
  | context [match ?c ?w with _ => _ end] => destruct (c w) as [[[] | e] w3] eqn:Hbody
  end.
  2: { exfalso. unfold_monad.
       destruct (if fs_exists _ _ then _ else _) as [[[] | ?] ?]; discriminate. }
  injection Hsave as <-.
  apply bind_ok_inv in Hbody as ([] & w1 & Hbuild & Hrest).
  apply build_temp_ok in Hbuild as (ar & saved & Hfile & Hsaved & Htemp & Hconf).
  exists ar, saved, w1. destruct Hconf as [Hbook Hfiles].
  split; [exact Hfile |]. split; [exact Hsaved |]. split; [exact Htemp |].
  split; [split; assumption |].
  unfold_monad. simpl in Hrest.
  destruct (backup && fs_exists fp (disk w1)); simpl in Hrest;
    injection Hrest as <-; simpl; rewrite Hbook; split; reflexivity.
Qed.

(** The rebuilt archive is what the file holds afterwards. *)
Lemma save_ok_file (backup : bool) (w w' : World) :
  Model.is_modified (book w) = true ->
  save backup w = (Ok tt, w') ->
  exists ar saved,
    files (disk w) !! Model.filepath (book w) = Some (ZipFile ar)
    /\ Spec.saved_archive ar (cache w) = Some saved
    /\ files (disk w') !! Model.filepath (book w) = Some (ZipFile saved)
    /\ book w' = Model.with_cache [] (Model.with_modified false (book w)).
Proof.
  intros Hmod Hsave.
  destruct (save_ok backup w w' Hmod Hsave)
    as (ar & saved & w1 & Hfile & Hsaved & Htemp & [_ Hfiles] & Hdisk & Hbook).
  set (fp := Model.filepath (book w)) in *.
  exists ar, saved. split; [exact Hfile |]. split; [exact Hsaved |]. split; [| exact Hbook].
  pose proof (temp_path_fresh fp) as Htf.
  pose proof (backup_not_temp fp) as Hbt.
  assert (Hkeep : forall d : FS,
             files d !! temp_path fp = Some (ZipFile saved) ->
             files (fs_replace (temp_path fp) fp d) !! fp = Some (ZipFile saved)).
  { intros d Hd. unfold fs_replace. rewrite Hd. simpl. apply lookup_insert_eq. }
  rewrite Hdisk. apply Hkeep.
  destruct (backup && fs_exists fp (disk w1)); [| exact Htemp].
  unfold fs_replace. destruct (files (disk w1) !! fp); [| exact Htemp].
  simpl. rewrite lookup_insert_ne, lookup_delete_ne by congruence. exact Htemp.
Qed.



End SaveSuccess.



(** ** The saver: when it succeeds *)

Section SaveProgress.
Import EpubSaver.











End SaveProgress.


(** ** Saving and loading again *)

Section SaveThenValidate.
Import EpubSaver EpubLoader.

Lemma validate_ok_ascii (path : string) (ar : Zip.archive) (m : Zip.member) :
  _validate_epub (opened path ar) = Ok tt ->
  Zip.getinfo ar "mimetype" = Some m ->
  Py.decode_ascii (snd m) = Some (snd m).
Proof.
  unfold _validate_epub, check_mimetype_content, Zip.read. simpl.
  unfold mbind, result_bind. intros H Hm. rewrite Hm in H.
  destruct (Py.decode_ascii (snd m)) as [decoded |] eqn:Hdec; [| discriminate].
  apply decode_ascii_same in Hdec. congruence.
Qed.

Lemma validate_intro (path : string) (ar rest : Zip.archive) (m first : Zip.member) :
  Zip.getinfo ar "mimetype" = Some m ->
  Py.decode_ascii (snd m) = Some (snd m) ->
  Py.strip (snd m) = "application/epub+zip" ->
  ar = first :: rest ->
  Zip.filename (fst first) = "mimetype" ->
  Zip.compress_type (fst first) = Zip.ZIP_STORED ->
  is_Some (Zip.getinfo ar "META-INF/container.xml") ->
  _validate_epub (opened path ar) = Ok tt.
Proof.
  intros Hm Hdec Hstrip Har Hname Hct [c Hc].
  unfold _validate_epub, check_mimetype_content, Zip.read.
  unfold opened, epub. rewrite Hm, Hdec, Hstrip, Hc. simpl.
  subst ar. simpl. rewrite Hname, Hct. reflexivity.
Qed.

(** X12.  Saving keeps the container valid: when the archive passes
    [_validate_epub] and no cached href is a suffix of ["mimetype"] or of
    ["META-INF/container.xml"], the archive a successful save writes
    passes [_validate_epub] too. *)
Theorem save_keeps_container_valid (backup : bool) (w w' : World) (ar : Zip.archive) :
  Model.is_modified (book w) = true ->
  files (disk w) !! Model.filepath (book w) = Some (ZipFile ar) ->
  _validate_epub (opened (Model.filepath (book w)) ar) = Ok tt ->
  matches_modified (Py.keys (cache w)) "mimetype" = false ->
  matches_modified (Py.keys (cache w)) "META-INF/container.xml" = false ->
  save backup w = (Ok tt, w') ->
  exists saved,
    files (disk w') !! Model.filepath (book w) = Some (ZipFile saved)
    /\ _validate_epub (opened (Model.filepath (book w)) saved) = Ok tt.
Proof.
  intros Hmod Hfile Hvalid Hmime Hcont Hsave.
  destruct (save_ok_file backup w w' Hmod Hsave) as (ar' & saved & Hfile' & Hsaved & Hfp & _).
  rewrite Hfile in Hfile'. injection Hfile' as <-.
  exists saved. split; [exact Hfp |].
  pose proof Hvalid as Hfacts.
  apply validate_ok in Hfacts
    as (m & first & rest & Hm & Hstrip & -> & Hname & Hct & [c Hc]).
  pose proof (validate_ok_ascii _ _ _ Hvalid Hm) as Hdec.
  destruct (saved_archive_getinfo _ _ _ _ _ Hsaved Hm Hmime) as (m' & Hm' & Hdata & _).
  destruct (saved_archive_getinfo _ _ _ _ _ Hsaved Hc Hcont) as (c' & Hc' & _).
  unfold Spec.saved_archive in Hsaved. rewrite Hm in Hsaved. simpl in Hsaved.
  injection Hsaved as Hsaved.
  eapply (validate_intro _ saved _ m').
  - exact Hm'.
  - rewrite Hdata. exact Hdec.
  - rewrite Hdata. exact Hstrip.
  - symmetry. exact Hsaved.
  - simpl. apply (getinfo_name _ _ _ Hm).
  - reflexivity.
  - eauto.
Qed.

End SaveThenValidate.

Lemma save_keeps_container_valid_witness :
  exists saved,
    files (disk (snd (EpubSaver.save true Fixture.suffix_edited))) !! "book.epub"
    = Some (ZipFile saved)
    /\ EpubLoader._validate_epub (EpubLoader.opened "book.epub" saved) = Ok tt.
Proof.
  apply (save_keeps_container_valid true Fixture.suffix_edited
           (snd (EpubSaver.save true Fixture.suffix_edited)) Fixture.suffix_archive);
    vm_compute; reflexivity.
Defined.

(** ** Reading after a save *)

Section ReadAfterSave.
Import EpubSaver.

(** X13.  [save] empties the cache and keeps the archive handle.  A
    content manager whose handle was open before the save therefore
    answers every later read from the archive as it was when the handle
    was opened, not from the file the save wrote. *)
Theorem read_after_save_uses_open_handle (backup : bool) (w w' : World)
    (handle : Zip.archive) (href : string) :
  Model.is_modified (book w) = true ->
  Model._zipfile (Model.content_manager (book w)) = Some handle ->
  save backup w = (Ok tt, w') ->
  Spec.view w' href = Laws.read_from handle (Model.opf_dir (book w)) href.
Proof.
  intros Hmod Hhandle Hsave.
  destruct (save_ok_file backup w w' Hmod Hsave) as (ar & saved & _ & _ & _ & Hbook).
  unfold Spec.view.
  rewrite (get_content_miss href w' handle).
  - rewrite Hbook. simpl. unfold Laws.read_from.
    destruct (Zip.getinfo handle _); reflexivity.
  - unfold cache. rewrite Hbook. reflexivity.
  - rewrite Hbook. simpl. exact Hhandle.
Qed.

Lemma keys_dset_in {K V} `{EqDecision K} (c : Py.dict K V) (k k' : K) (v : V) :
  In k' (Py.keys (Py.dset c k v)) -> k' = k \/ In k' (Py.keys c).
Proof.
  unfold Py.keys. induction c as [| [k0 v0] c IH]; simpl.
  - intros [<- | []]. auto.
  - destruct (decide (k0 = k)) as [-> | Hne]; simpl.
    + intros [<- | H]; auto.
    + intros [<- | H]; [auto |]. destruct (IH H); auto.
Qed.

Lemma keys_dset_nodup {K V} `{EqDecision K} (c : Py.dict K V) (k : K) (v : V) :
  NoDup (Py.keys c) -> NoDup (Py.keys (Py.dset c k v)).
Proof.
  unfold Py.keys. induction c as [| [k0 v0] c IH]; simpl; intros Hnd.
  - apply NoDup_singleton.
  - apply NoDup_cons in Hnd as [Hnotin Hnd].
    destruct (decide (k0 = k)) as [-> | Hne]; simpl.
    + apply NoDup_cons. auto.
    + apply NoDup_cons. split; [| auto].
      intros Hin. apply list_elem_of_In in Hin.
      apply (keys_dset_in c k k0 v) in Hin as [-> | Hin]; [congruence |].
      apply Hnotin, list_elem_of_In, Hin.
Qed.






End ReadAfterSave.

Lemma read_after_save_uses_open_handle_witness :
  Spec.view (snd (EpubSaver.save true Fixture.replaced_world)) "content/page1.xhtml"
  = Ok Fixture.page1_src.
Proof.
  apply (read_after_save_uses_open_handle true Fixture.replaced_world
           (snd (EpubSaver.save true Fixture.replaced_world)) Fixture.test_archive
           "content/page1.xhtml").
  - reflexivity.
  - reflexivity.
  - vm_compute. reflexivity.
Defined.


(** ** The loader: manifest, failures, and reading what was loaded *)

Section LoaderFacts.
Import EpubLoader.

Lemma fold_dset_nodup {A K V} `{EqDecision K} (kf : A -> K) (vf : A -> V) (l : list A) :
  forall d : Py.dict K V,
    NoDup (Py.keys d) ->
    NoDup (Py.keys (fold_left (fun d x => Py.dset d (kf x) (vf x)) l d)).
Proof.
  induction l as [| x l IH]; intros d Hd; simpl; [exact Hd |].
  apply IH, keys_dset_nodup, Hd.
Qed.

Lemma fold_dset_lookup {A K V} `{EqDecision K} (kf : A -> K) (vf : A -> V) (l : list A)
    (key : K) :
  forall d : Py.dict K V,
    Py.dget (fold_left (fun d x => Py.dset d (kf x) (vf x)) l d) key
    = match last (filter (fun x => kf x = key) l) with
      | Some x => Some (vf x)
      | None => Py.dget d key
      end.
Proof.
  induction l as [| x l IH] using rev_ind; intros d; [reflexivity |].
  rewrite fold_left_app, filter_app. simpl. rewrite dget_dset.
  rewrite filter_cons, filter_nil.
  destruct (decide (kf x = key)) as [Heq | Hne].
  - rewrite last_snoc. reflexivity.
  - rewrite app_nil_r. apply IH.
Qed.

(** X15.  The manifest [_parse_manifest] builds has no two entries with
    the same id, and the entry under an id is the item built from the
    last [item] element with that id; an id no element has is absent. *)
Theorem parse_manifest_keys (manifest_element : Xml.element) (key : option string) :
  NoDup (Py.keys (_parse_manifest manifest_element))
  /\ Py.dget (_parse_manifest manifest_element) key
     = Laws.manifest_item <$> last (Laws.items_with_id key manifest_element).
Proof.
  unfold _parse_manifest. split.
  - apply (fold_dset_nodup (fun item => Xml.get item "id") Laws.manifest_item).
    constructor.
  - rewrite (fold_dset_lookup (fun item => Xml.get item "id") Laws.manifest_item).
    unfold Laws.items_with_id. destruct (last _); reflexivity.
Qed.

Example parse_manifest_repeated_id :
  Py.keys (_parse_manifest Fixture.repeated_manifest) = [Some "a"; Some "b"]
  /\ Model.href <$> Py.dget (_parse_manifest Fixture.repeated_manifest) (Some "a")
     = Some (Some "three.xhtml").
Proof. split; reflexivity. Qed.

End LoaderFacts.

Section LoadFacts.
Context {XP : Xml.Parser}.
Import EpubLoader.





(** X17.  A book that [load] returns is clean and reads its archive: it
    is not modified, its cache is empty, its package directory is the
    parent of the path [container.xml] gives, and a read of any href
    returns the bytes of the member at the decoded href joined to that
    directory, or raises [FileNotFoundError] when there is none. *)
Theorem load_then_read (path : string) (d : FS) (b : Model.EpubBook) (ar : Zip.archive) :
  load path d = Ok b ->
  files d !! path = Some (ZipFile ar) ->
  Model.is_modified b = false
  /\ Model._content_cache (Model.content_manager b) = []
  /\ (exists opf,
        _get_opf_path (opened path ar) = Ok opf
        /\ Model.opf_dir b = PathLib.as_posix (PathLib.parent (PathLib.Path opf)))
  /\ forall href,
       Spec.view {| disk := d; book := b |} href = Laws.read_from ar (Model.opf_dir b) href.
Proof.
  unfold load. intros Hload Hfile. rewrite Hfile in Hload.
  unfold mbind at 1 in Hload. unfold result_bind at 1 in Hload.
  destruct (_validate_epub (opened path ar)) as [[] | e0]; [| discriminate].
  unfold mbind at 1 in Hload. unfold result_bind at 1 in Hload.
  destruct (_get_opf_path (opened path ar)) as [opf | e1]; [| discriminate].
  unfold _parse_opf in Hload. simpl in Hload.
  destruct (String.eqb opf ""); [discriminate |].
  unfold mbind, result_bind in Hload.
  destruct (Zip.read ar opf) as [opf_content |]; [| discriminate].
  destruct (Xml.fromstring opf_content) as [tree |]; [| discriminate].
  destruct (Xml.find tree _); [| discriminate].
  destruct (Xml.find tree (opf_ns +:+ "manifest")); [| discriminate].
  destruct (Xml.find tree (opf_ns +:+ "spine")); [| discriminate].
  injection Hload as <-. simpl.
  split; [reflexivity |]. split; [reflexivity |]. split; [eauto |].
  intros href.
  unfold Spec.view, ContentManager.get_content, ContentManager.zipfile, cache.
  unfold_monad. simpl. rewrite Hfile. simpl.
  unfold Laws.read_from, Zip.read.
  destruct (Zip.getinfo ar _); reflexivity.
Qed.

End LoadFacts.


Lemma load_then_read_witness :
  exists b,
    @EpubLoader.load Fixture.table_parser "book.epub" (Fixture.on_disk Fixture.valid_archive)
    = Ok b
    /\ Model.opf_dir b = "OEBPS"
    /\ Spec.view {| disk := Fixture.on_disk Fixture.valid_archive; book := b |} "text.xhtml"
       = Ok Fixture.text_src.
Proof.
  destruct (@EpubLoader.load Fixture.table_parser "book.epub"
              (Fixture.on_disk Fixture.valid_archive)) as [b | e] eqn:Hload;
    [| vm_compute in Hload; discriminate].
  destruct (@load_then_read Fixture.table_parser "book.epub"
              (Fixture.on_disk Fixture.valid_archive) b Fixture.valid_archive Hload eq_refl)
    as (_ & _ & (opf & Hopf & Hdir) & Hread).
  exists b. split; [reflexivity |].
  vm_compute in Hopf. injection Hopf as <-.
  split; [exact Hdir |].
  rewrite Hread, Hdir. reflexivity.
Defined.

(** The valid EPUB of the repository's loader tests. *)
Example load_valid_epub :
  exists b,
    @EpubLoader.load Fixture.table_parser "book.epub" (Fixture.on_disk Fixture.valid_archive)
    = Ok b
    /\ Model.title (Model.metadata b) = Some "Test Title"
    /\ Model.creator (Model.metadata b) = Some "Test Author"
    /\ Model.language (Model.metadata b) = Some "en"
    /\ length (Model.manifest b) = 1
    /\ Model.href <$> Py.dget (Model.manifest b) (Some "text") = Some (Some "text.xhtml")
    /\ Model.spine b = [{| Model.idref := Some "text"; Model.linear := true |}].
Proof. eexists. vm_compute. repeat split. Qed.

(** X18.  [close] drops the archive handle and nothing else: the disk,
    the cache and the modified flag stay.  After it an href in the cache
    still reads as its cached bytes, and an href not in the cache is read
    from the file the book's path names at that moment: from its archive,
    with [BadZipFile] when it is no archive and [FileNotFoundError] when
    it is gone. *)
Theorem close_then_read (w : World) (href : string) :
  let w1 := snd (ContentManager.close w) in
  ContentManager.close w = (Ok tt, w1)
  /\ disk w1 = disk w
  /\ cache w1 = cache w
  /\ Model.is_modified (book w1) = Model.is_modified (book w)
  /\ Spec.view w1 href
     = match Py.dget (cache w) href with
       | Some content => Ok content
       | None =>
           match files (disk w) !! Model.filepath (book w) with
           | Some (ZipFile ar) => Laws.read_from ar (Model.opf_dir (book w)) href
           | Some (RawFile _) => Raise BadZipFile
           | None =>
               Raise (FileNotFoundError
                        ("No such file or directory: '" +:+ Model.filepath (book w) +:+ "'"))
           end
       end.
Proof.
  destruct_world w.
  unfold Spec.view, ContentManager.close, ContentManager.get_content,
    ContentManager.zipfile, Laws.read_from, Zip.read, cache.
  unfold_monad. simpl.
  repeat (split; [reflexivity |]).
  destruct (Py.dget c href) as [content |]; [reflexivity |].
  cbn.
  destruct (files d !! fp) as [[ar | raw] |]; cbn; try reflexivity.
  destruct (Zip.getinfo ar _); reflexivity.
Qed.
